(** * Location-based Weibo collector: a shallow embedding of the collection
      pipeline and the properties of its pagination, retry and JSON-shape
      validation logic.

    Source files embedded here:
    - [src/collectors/weibo_collector.py]   (class [WeiboDataCollector])
    - [src/collectors/url_generator.py]     ([convert_cardlist_to_api_url])
    - [src/collectors/coordinate_collector.py] ([get_coordinates] and the
      loop of [collect_coordinates_from_csv]) *)

From Stdlib Require Import List ZArith NArith QArith Bool String Ascii Lia.
From Stdlib Require Import DecimalString.
Import ListNotations.

Set Implicit Arguments.
Set Warnings "-register-all".

(** ** Python strings

    A Python [str] is a sequence of Unicode code points.  Literals of the
    source that are pure ASCII are written with [lit]. *)

Module PyStr.

Definition pychar := N.
Definition pystr := list pychar.

Definition lit (s : string) : pystr :=
  map N_of_ascii (list_ascii_of_string s).

Fixpoint eqb (s t : pystr) : bool :=
  match s, t with
  | [], [] => true
  | a :: s', b :: t' => N.eqb a b && eqb s' t'
  | _, _ => false
  end.

(** [s.startswith(p)] *)
Fixpoint starts_with (p s : pystr) : bool :=
  match p, s with
  | [], _ => true
  | a :: p', b :: s' => N.eqb a b && starts_with p' s'
  | _ :: _, [] => false
  end.

(** [p in s] for two strings: [p] occurs somewhere in [s]. *)
Fixpoint contains (p s : pystr) : bool :=
  starts_with p s ||
  match s with
  | [] => false
  | _ :: s' => contains p s'
  end.

(** [s.replace(old, new)] for a non-empty [old]: every occurrence, scanning
    from the left, occurrences do not overlap.  [skip] counts the characters
    of the current occurrence that are still to be dropped. *)
Fixpoint replace_from (old new : pystr) (skip : nat) (s : pystr) : pystr :=
  match s with
  | [] => []
  | c :: s' =>
      match skip with
      | S k => replace_from old new k s'
      | O =>
          if starts_with old s
          then new ++ replace_from old new (List.length old - 1) s'
          else c :: replace_from old new 0 s'
      end
  end.

Definition replace (old new s : pystr) : pystr := replace_from old new 0 s.

(** [sep.join(parts)] *)
Fixpoint join (sep : pystr) (parts : list pystr) : pystr :=
  match parts with
  | [] => []
  | [p] => p
  | p :: rest => p ++ sep ++ join sep rest
  end.

(** [str(n)] / [f"{n}"] for an [int]. *)
Definition of_int (n : Z) : pystr :=
  lit (NilEmpty.string_of_int (Z.to_int n)).

End PyStr.

Import PyStr.

(** ** Python values

    The values that [response.json()] can produce, which are also the values
    stored in the records the collector builds.  A [dict] keeps its insertion
    order; [dict_get] returns the value of the first entry with the key. *)

Inductive pyfloat : Type :=
| FNaN
| FInf (negative : bool)
| FFin (q : Q).

Inductive json : Type :=
| JNull
| JBool (b : bool)
| JInt (z : Z)
| JFloat (f : pyfloat)
| JStr (s : pystr)
| JList (l : list json)
| JDict (d : list (pystr * json)).

Definition record := list (pystr * json).

Fixpoint dict_get (d : list (pystr * json)) (k : pystr) : option json :=
  match d with
  | [] => None
  | (k', v) :: d' => if PyStr.eqb k' k then Some v else dict_get d' k
  end.

(** [d.get(k, default)] *)
Definition get_or (d : list (pystr * json)) (k : string) (default : json) : json :=
  match dict_get d (lit k) with
  | Some v => v
  | None => default
  end.

(** [d.get(k)]: [None] when the key is absent. *)
Definition get (d : list (pystr * json)) (k : string) : json := get_or d k JNull.

(** [v == k] for an [int] literal [k], with Python's numeric equality:
    [False == 0], [True == 1] and [9.0 == 9] hold. *)
Definition eq_int (v : json) (k : Z) : bool :=
  match v with
  | JInt z => Z.eqb z k
  | JBool b => Z.eqb (if b then 1 else 0) k
  | JFloat (FFin q) => Qeq_bool q (inject_Z k)
  | _ => false
  end.

(** [v == s] for a [str] literal [s]. *)
Definition eq_str (v : json) (s : pystr) : bool :=
  match v with
  | JStr t => PyStr.eqb t s
  | _ => false
  end.

(** [bool(v)] *)
Definition truthy (v : json) : bool :=
  match v with
  | JNull => false
  | JBool b => b
  | JInt z => negb (Z.eqb z 0)
  | JFloat (FFin q) => negb (Qeq_bool q 0)
  | JFloat _ => true
  | JStr s => match s with [] => false | _ => true end
  | JList l => match l with [] => false | _ => true end
  | JDict d => match d with [] => false | _ => true end
  end.

Definition is_dict (v : json) : bool :=
  match v with JDict _ => true | _ => false end.

Definition is_list (v : json) : bool :=
  match v with JList _ => true | _ => false end.

(** [hash(v)] succeeds: lists and dicts cannot be dictionary keys. *)
Definition hashable (v : json) : bool :=
  match v with JList _ | JDict _ => false | _ => true end.

(** The "no content" message, '这里还没有内容', as code points. *)
Definition no_content_msg : pystr :=
  [36825; 37324; 36824; 27809; 26377; 20869; 23481]%N.

(** ** Exceptions *)

Inductive exn : Type :=
| TypeError
| AttributeError
| ValueError
| KeyError
| IndexError
| RequestException
| OSError.

Inductive Res (A : Type) : Type :=
| Ok (a : A)
| Raise (e : exn).

Arguments Ok {A} a.
Arguments Raise {A} e.

(** ** [WeiboDataCollector.extract_mblog_info]

    The text clean-up (the cut at the "全文" link, [BeautifulSoup.get_text]
    and the four [re.sub] calls) is done by external libraries: on a [str] it
    is the function [clean_text]; what it does on a non-empty list or dict is
    decided by BeautifulSoup and is [clean_container]. *)

Section Extraction.

Variable clean_text : pystr -> pystr.
Variable clean_container : json -> Res pystr.

(** Lines 97-127: [raw_text] after cleaning, or the exception raised on the
    way.  [x in raw_text] raises [TypeError] when [raw_text] is [None], a
    bool or a number; [re.sub] raises [TypeError] on an empty list or dict. *)
Definition cleaned_text (mblog : list (pystr * json)) : Res pystr :=
  match get_or mblog "text" (JStr []) with
  | JStr s => Ok (clean_text s)
  | JNull | JBool _ | JInt _ | JFloat _ => Raise TypeError
  | JList [] | JDict [] => Raise TypeError
  | (JList _ | JDict _) as v => clean_container v
  end.

(** Lines 161-166: the truthy [url] values of the pictures that are dicts. *)
Fixpoint pic_url_values (pics : list json) : list json :=
  match pics with
  | [] => []
  | JDict pic :: rest =>
      let pic_url := get_or pic "url" (JStr []) in
      if truthy pic_url then pic_url :: pic_url_values rest
      else pic_url_values rest
  | _ :: rest => pic_url_values rest
  end.

(** ['; '.join(pic_urls)]: [TypeError] when an item is not a [str]. *)
Fixpoint strs_of (vs : list json) : Res (list pystr) :=
  match vs with
  | [] => Ok []
  | JStr s :: rest =>
      match strs_of rest with
      | Ok l => Ok (s :: l)
      | Raise e => Raise e
      end
  | _ :: _ => Raise TypeError
  end.

Definition pic_urls_of (mblog : list (pystr * json)) : Res json :=
  match get_or mblog "pics" (JList []) with
  | JList ((_ :: _) as pics) =>
      match strs_of (pic_url_values pics) with
      | Ok l => Ok (JStr (join (lit "; ") l))
      | Raise e => Raise e
      end
  | _ => Ok (JStr [])
  end.

Definition extract_mblog_info (mblog : json) (coordinates : json) : Res record :=
  match mblog with
  | JDict m =>
      let user := match get_or m "user" (JDict []) with
                  | JDict u => u
                  | _ => []
                  end in
      match cleaned_text m with
      | Raise e => Raise e
      | Ok raw_text =>
          let weibo_info :=
            [ (lit "mid", get_or m "mid" (JStr []));
              (lit "created_at", get_or m "created_at" (JStr []));
              (lit "text", JStr raw_text);
              (lit "text_length", JInt (Z.of_nat (List.length raw_text)));
              (lit "source", get_or m "source" (JStr []));
              (lit "favorited", get_or m "favorited" (JBool false));
              (lit "reposts_count", get_or m "reposts_count" (JInt 0));
              (lit "comments_count", get_or m "comments_count" (JInt 0));
              (lit "attitudes_count", get_or m "attitudes_count" (JInt 0));
              (lit "pic_num", get_or m "pic_num" (JInt 0));
              (lit "user_id", get_or user "id" (JStr []));
              (lit "screen_name", get_or user "screen_name" (JStr []));
              (lit "follow_count", get_or user "follow_count" (JInt 0));
              (lit "followers_count", get_or user "followers_count" (JInt 0));
              (lit "statuses_count", get_or user "statuses_count" (JInt 0));
              (lit "verified", get_or user "verified" (JBool false));
              (lit "verified_type", get_or user "verified_type" (JInt (-1)));
              (lit "gender", get_or user "gender" (JStr []));
              (lit "retweeted_status", JBool (truthy (get m "retweeted_status")));
              (lit "is_long_text", get_or m "isLongText" (JBool false)) ] in
          match pic_urls_of m with
          | Raise e => Raise e
          | Ok pic_urls =>
              Ok (weibo_info ++ [ (lit "pic_urls", pic_urls);
                                  (lit "coordinates", coordinates) ])
          end
      end
  | _ => Ok []
  end.

(** ** [WeiboDataCollector.extract_weibo_info_from_json]

    The body runs with the mutable list [weibo_posts]; an exception leaves
    the loop with the posts appended so far, which the [except] clause
    returns.  [Loop A] is the state-and-exception monad of that body. *)

Definition Loop (A : Type) : Type := list record -> Res A * list record.

Definition ret {A} (a : A) : Loop A := fun posts => (Ok a, posts).

Definition bind {A B} (c : Loop A) (k : A -> Loop B) : Loop B :=
  fun posts =>
    match c posts with
    | (Ok a, posts') => k a posts'
    | (Raise e, posts') => (Raise e, posts')
    end.

Definition lift {A} (r : Res A) : Loop A := fun posts => (r, posts).

(** [weibo_posts.append(weibo_info)] *)
Definition append (weibo_info : record) : Loop unit :=
  fun posts => (Ok tt, posts ++ [weibo_info]).

Notation "x <- c ;; k" := (bind c (fun x => k))
  (at level 61, c at next level, right associativity).

(** [for x in l: body x] *)
Fixpoint for_each {A} (body : A -> Loop unit) (l : list A) : Loop unit :=
  match l with
  | [] => ret tt
  | x :: rest => _ <- body x ;; for_each body rest
  end.

(** Lines 225-228 and 242-245. *)
Definition collect_mblog (holder : list (pystr * json)) (coordinates : json) : Loop unit :=
  match get_or holder "mblog" (JDict []) with
  | JDict (_ :: _) as mblog =>
      weibo_info <- lift (extract_mblog_info mblog coordinates) ;;
      append weibo_info
  | _ => ret tt
  end.

(** Lines 236-245: one item of a card group. *)
Definition group_item_step (coordinates : json) (group_item : json) : Loop unit :=
  match group_item with
  | JDict g =>
      if eq_int (get g "card_type") 9 then collect_mblog g coordinates
      else ret tt
  | _ => ret tt
  end.

(** Lines 217-245: one card. *)
Definition card_step (coordinates : json) (card : json) : Loop unit :=
  match card with
  | JDict c =>
      if eq_int (get c "card_type") 9 then collect_mblog c coordinates
      else if eq_int (get c "card_type") 11 then
        match get_or c "card_group" (JList []) with
        | JList card_group => for_each (group_item_step coordinates) card_group
        | _ => ret tt
        end
      else ret tt
  | _ => ret tt
  end.

(** Lines 192-247: the body of the [try]; it returns [weibo_posts]. *)
Definition extract_body (json_data : json) (coordinates : json) : Loop (list record) :=
  match json_data with
  | JDict j =>
      if eq_int (get j "ok") 0 && eq_str (get j "msg") no_content_msg
      then fun posts => (Ok posts, posts)
      else if negb (eq_int (get j "ok") 1)
      then fun posts => (Ok posts, posts)
      else
        match get_or j "data" (JDict []) with
        | JDict data =>
            match get_or data "cards" (JList []) with
            | JList cards =>
                _ <- for_each (card_step coordinates) cards ;;
                fun posts => (Ok posts, posts)
            | _ => fun posts => (Ok posts, posts)
            end
        | _ => fun posts => (Ok posts, posts)
        end
  | _ => fun posts => (Ok posts, posts)
  end.

(** The whole function: [weibo_posts = []], the [try] body, and the
    [except Exception] clause that returns [weibo_posts] as it stands. *)
Definition extract_weibo_info_from_json (json_data : json) (coordinates : json)
  : Res (list record) :=
  match extract_body json_data coordinates [] with
  | (Ok posts, _) => Ok posts
  | (Raise _, weibo_posts) => Ok weibo_posts
  end.

End Extraction.

(** ** The collector's world

    Everything outside the process is kept in one state: the statistics of
    the collector object, the [session.get] calls made so far, the
    [time.sleep] calls made so far (durations as exact rationals), what every
    call of [fetch_weibo_data_from_api] handed back to the page loop, and the
    files written. *)

(** A cell of a data frame read by [pandas.read_csv]: a string, a number,
    or NaN (a float) where the CSV cell is empty. *)
Inductive cell : Type :=
| CellStr (s : pystr)
| CellInt (z : Z)
| CellFloat (f : pyfloat).

Definition json_of_cell (c : cell) : json :=
  match c with
  | CellStr s => JStr s
  | CellInt z => JInt z
  | CellFloat f => JFloat f
  end.

Record stats_t : Type := {
  total_requests : Z;
  successful_requests : Z;
  failed_requests : Z;
  total_posts : Z
}.

(** [self.stats] after [__init__]. *)
Definition init_stats : stats_t :=
  {| total_requests := 0; successful_requests := 0;
     failed_requests := 0; total_posts := 0 |}.

Record page_event : Type := {
  ev_location : pystr;
  ev_page : Z;
  ev_posts : list record;
  ev_end_of_data : bool
}.

Inductive file_content : Type :=
| DataCsv (posts : list record)
| StatsTxt (st : stats_t) (location_stats : list (pystr * Z)).

Record world : Type := {
  stats : stats_t;
  gets : list cell;
  sleeps : list Q;
  trace : list page_event;
  files : list (pystr * file_content)
}.

Definition init_world : world :=
  {| stats := init_stats; gets := []; sleeps := []; trace := []; files := [] |}.

Definition set_stats (f : stats_t -> stats_t) (w : world) : world :=
  {| stats := f (stats w); gets := gets w; sleeps := sleeps w;
     trace := trace w; files := files w |}.

Definition log_get (url : cell) (w : world) : world :=
  {| stats := stats w; gets := gets w ++ [url]; sleeps := sleeps w;
     trace := trace w; files := files w |}.

(** [time.sleep(d)] *)
Definition sleep (d : Q) (w : world) : world :=
  {| stats := stats w; gets := gets w; sleeps := sleeps w ++ [d];
     trace := trace w; files := files w |}.

Definition log_event (e : page_event) (w : world) : world :=
  {| stats := stats w; gets := gets w; sleeps := sleeps w;
     trace := trace w ++ [e]; files := files w |}.

Definition write_file (path : pystr) (c : file_content) (w : world) : world :=
  {| stats := stats w; gets := gets w; sleeps := sleeps w;
     trace := trace w; files := files w ++ [(path, c)] |}.

Definition incr_total (st : stats_t) : stats_t :=
  {| total_requests := total_requests st + 1;
     successful_requests := successful_requests st;
     failed_requests := failed_requests st;
     total_posts := total_posts st |}.

Definition incr_failed (st : stats_t) : stats_t :=
  {| total_requests := total_requests st;
     successful_requests := successful_requests st;
     failed_requests := failed_requests st + 1;
     total_posts := total_posts st |}.

Definition incr_successful (n : Z) (st : stats_t) : stats_t :=
  {| total_requests := total_requests st;
     successful_requests := successful_requests st + 1;
     failed_requests := failed_requests st;
     total_posts := total_posts st + n |}.

(** What one [session.get(api_url, timeout=15)] does: it raises, or it gives
    a response whose body is JSON text or not. *)
Inductive body : Type :=
| NotJson
| Json (json_data : json).

Inductive attempt_outcome : Type :=
| GetRaises (e : exn)
| Response (status_code : Z) (b : body).

(** [post['location'] = location] *)
Fixpoint dict_set (d : record) (k : pystr) (v : json) : record :=
  match d with
  | [] => [(k, v)]
  | (k', v') :: d' =>
      if PyStr.eqb k' k then (k', v) :: d' else (k', v') :: dict_set d' k v
  end.

(** ** [WeiboDataCollector.fetch_weibo_data_from_api] *)

Section Fetch.

Variable clean_text : pystr -> pystr.
Variable clean_container : json -> Res pystr.

(** The network: the outcome of the [k]-th [session.get] of the run
    (counting from 0) when it is asked for [url]. *)
Variable net : nat -> cell -> attempt_outcome.

(** Lines 295-299: the card types are counted in a dict, so a [card_type]
    that is a list or a dict raises [TypeError] (unhashable). *)
Fixpoint count_card_types (cards : list json) : Res unit :=
  match cards with
  | [] => Ok tt
  | JDict card :: rest =>
      if hashable (get_or card "card_type" (JStr (lit "unknown")))
      then count_card_types rest
      else Raise TypeError
  | _ :: rest => count_card_types rest
  end.

(** Lines 281-300: the debug logging of the response structure. *)
Definition log_response_structure (json_data : json) : Res unit :=
  match json_data with
  | JDict j =>
      match dict_get j (lit "data") with
      | Some (JDict data) =>
          match dict_get data (lit "cards") with
          | Some (JList cards) => count_card_types cards
          | _ => Ok tt
          end
      | _ => Ok tt
      end
  | _ => Ok tt
  end.

(** Line 305: [json_data.get] exists on a dict only. *)
Definition end_of_data_flag (json_data : json) : Res bool :=
  match json_data with
  | JDict j => Ok (eq_int (get j "ok") 0 && eq_str (get j "msg") no_content_msg)
  | _ => Raise AttributeError
  end.

(** Lines 278-305, the inner [try]: [response.json()] raises [ValueError]
    on a body that is not JSON. *)
Definition read_response (b : body) (coordinates : json)
  : Res (list record * bool) :=
  match b with
  | NotJson => Raise ValueError
  | Json json_data =>
      match log_response_structure json_data with
      | Raise e => Raise e
      | Ok _ =>
          match extract_weibo_info_from_json clean_text clean_container
                  json_data coordinates with
          | Raise e => Raise e
          | Ok weibo_posts =>
              match end_of_data_flag json_data with
              | Raise e => Raise e
              | Ok is_end_of_data => Ok (weibo_posts, is_end_of_data)
              end
          end
      end
  end.

(** What one attempt comes to: a page to return, or a failure (a non-200
    status, the [except ValueError] clause or the [except Exception]
    clause). *)
Inductive attempt_result : Type :=
| Fetched (weibo_posts : list record) (is_end_of_data : bool)
| Failure.

Definition run_attempt (out : attempt_outcome) (location : pystr)
  (coordinates : json) : attempt_result :=
  match out with
  | GetRaises _ => Failure
  | Response status_code b =>
      if (status_code =? 200)%Z then
        match read_response b coordinates with
        | Raise ValueError => Failure
        | Raise _ => Failure
        | Ok (weibo_posts, is_end_of_data) =>
            Fetched (map (fun post => dict_set post (lit "location") (JStr location))
                      weibo_posts)
                    is_end_of_data
        end
      else Failure
  end.

(** Lines 270-344: the loop [for attempt in range(retry_count)], entered at
    [attempt] with [remaining] iterations to go. *)
Fixpoint attempts (remaining : nat) (attempt : Z) (api_url : cell)
  (location : pystr) (coordinates : json) (retry_count : Z) (delay : Q)
  (w : world) : (list record * bool) * world :=
  match remaining with
  | O => (([], false), w)
  | S remaining' =>
      let out := net (List.length (gets w)) api_url in
      let w := log_get api_url w in
      match run_attempt out location coordinates with
      | Fetched weibo_posts is_end_of_data =>
          ((weibo_posts, is_end_of_data),
           set_stats (incr_successful (Z.of_nat (List.length weibo_posts))) w)
      | Failure =>
          if (attempt <? retry_count - 1)%Z then
            attempts remaining' (attempt + 1) api_url location coordinates
              retry_count delay (sleep (delay * inject_Z (attempt + 1)) w)
          else (([], false), set_stats incr_failed w)
      end
  end.

Definition fetch_weibo_data_from_api (api_url : cell) (location : pystr)
  (page : Z) (coordinates : json) (retry_count : Z) (delay : Q) (w : world)
  : (list record * bool) * world :=
  attempts (Z.to_nat retry_count) 0 api_url location coordinates retry_count
    delay (set_stats incr_total w).

End Fetch.

(** ** [WeiboDataCollector.collect_weibo_data_from_csv]

    The data frame is what [pd.read_csv] made of the input file.  The
    [Location] column holds strings and the [Page] column integers, as the URL
    generator writes them; [columns] tells which columns the file has.  Rows
    with the same page keep their file order when sorted. *)

Record csv_row : Type := {
  Location : pystr;
  Page : Z;
  API_URL : cell;
  Coordinates : cell
}.

Record frame : Type := {
  columns : list pystr;
  rows : list csv_row
}.

Definition has_column (df : frame) (name : string) : bool :=
  existsb (PyStr.eqb (lit name)) (columns df).

(** [Series.unique()]: the values in order of first appearance. *)
Fixpoint unique_from (seen : list pystr) (l : list pystr) : list pystr :=
  match l with
  | [] => []
  | x :: rest =>
      if existsb (PyStr.eqb x) seen then unique_from seen rest
      else x :: unique_from (x :: seen) rest
  end.

Definition unique (l : list pystr) : list pystr := unique_from [] l.

Fixpoint insert_by_page (r : csv_row) (l : list csv_row) : list csv_row :=
  match l with
  | [] => [r]
  | x :: rest =>
      if (Page r <=? Page x)%Z then r :: l else x :: insert_by_page r rest
  end.

(** [sort_values('Page')] *)
Definition sort_values (l : list csv_row) : list csv_row :=
  fold_right insert_by_page [] l.

(** [Series.max()] of the pages of a non-empty frame. *)
Definition max_page (first : csv_row) (rest : list csv_row) : Z :=
  fold_left (fun m r => Z.max m (Page r)) rest (Page first).

(** [s.split(sep)[0]] *)
Fixpoint before_first (sep s : pystr) : pystr :=
  if starts_with sep s then []
  else match s with
       | [] => []
       | c :: s' => c :: before_first sep s'
       end.

Section Collect.

Variable clean_text : pystr -> pystr.
Variable clean_container : json -> Res pystr.
Variable net : nat -> cell -> attempt_outcome.

(** [os.path.join] *)
Variable os_path_join : pystr -> pystr -> pystr.

(** Lines 404-413: the URL of a page. *)
Definition page_url (location_df : list csv_row) (current_max_page : Z)
  (base_url_without_page : pystr) (page : Z) : cell :=
  let generated :=
    CellStr (base_url_without_page ++ lit "&page=" ++ of_int page) in
  if (page <=? current_max_page)%Z then
    match filter (fun r => (Page r =? page)%Z) location_df with
    | existing_row :: _ => API_URL existing_row
    | [] => generated
    end
  else generated.

(** Lines 402-434: [for page in range(1, max_pages_to_test + 1)], entered
    at [page] with [remaining] iterations to go.  Each call of
    [fetch_weibo_data_from_api] (with its default [retry_count] of 3) and
    what it returned is noted in [trace]. *)
Fixpoint page_loop (remaining : nat) (page : Z) (location_df : list csv_row)
  (current_max_page : Z) (base_url_without_page : pystr) (location : pystr)
  (coordinates : json) (delay_between_requests : Q)
  (location_posts : list record) (w : world) : list record * world :=
  match remaining with
  | O => (location_posts, w)
  | S remaining' =>
      let api_url :=
        page_url location_df current_max_page base_url_without_page page in
      let '((weibo_posts, is_end_of_data), w) :=
        fetch_weibo_data_from_api clean_text clean_container net api_url
          location page coordinates 3 delay_between_requests w in
      let w := log_event {| ev_location := location; ev_page := page;
                            ev_posts := weibo_posts;
                            ev_end_of_data := is_end_of_data |} w in
      let location_posts :=
        match weibo_posts with
        | [] => location_posts
        | _ => location_posts ++ weibo_posts
        end in
      if is_end_of_data then (location_posts, w)
      else
        let w := if Qle_bool delay_between_requests 0 then w
                 else sleep delay_between_requests w in
        page_loop remaining' (page + 1) location_df current_max_page
          base_url_without_page location coordinates delay_between_requests
          location_posts w
  end.

(** Lines 381-439: one location.  [sort_values('Page')] raises [KeyError]
    without a [Page] column; ['&page=' in base_url] raises [TypeError] when
    the cell is not a string. *)
Definition collect_location (df : frame) (location : pystr)
  (delay_between_requests : Q) (max_pages_to_test : Z) (w : world)
  : Res (list record) * world :=
  if negb (has_column df "Page") then (Raise KeyError, w)
  else
    match sort_values
            (filter (fun r => PyStr.eqb (Location r) location) (rows df)) with
    | [] => (Raise IndexError, w)
    | first_row :: others =>
        let coordinates :=
          if has_column df "Coordinates"
          then json_of_cell (Coordinates first_row) else JStr [] in
        match API_URL first_row with
        | CellStr base_url =>
            let base_url_without_page :=
              if contains (lit "&page=") base_url
              then before_first (lit "&page=") base_url else base_url in
            let current_max_page := max_page first_row others in
            let '(location_posts, w) :=
              page_loop (Z.to_nat max_pages_to_test) 1 (first_row :: others)
                current_max_page base_url_without_page location coordinates
                delay_between_requests [] w in
            (Ok location_posts, w)
        | _ => (Raise TypeError, w)
        end
    end.

(** Lines 380-439: [for location in df['Location'].unique()]. *)
Fixpoint locations_loop (locations : list pystr) (df : frame)
  (delay_between_requests : Q) (max_pages_to_test : Z)
  (all_weibo_data : list record) (location_stats : list (pystr * Z))
  (w : world) : Res (list record * list (pystr * Z)) * world :=
  match locations with
  | [] => (Ok (all_weibo_data, location_stats), w)
  | location :: rest =>
      match collect_location df location delay_between_requests
              max_pages_to_test w with
      | (Raise e, w) => (Raise e, w)
      | (Ok location_posts, w) =>
          locations_loop rest df delay_between_requests max_pages_to_test
            (all_weibo_data ++ location_posts)
            (location_stats ++
               [(location, Z.of_nat (List.length location_posts))])
            w
      end
  end.

(** [_save_statistics]: the name of the statistics file. *)
Definition stats_file_of (output_path : pystr) : pystr :=
  replace (lit ".csv") (lit "_stats.txt") output_path.

(** Lines 365-456, the body of the [try].  [csv] is what
    [pd.read_csv(csv_file_path)] gives, [to_csv] and [save_statistics] tell
    whether writing the data file and the statistics file succeeds. *)
Definition collect_body (cookies : pystr) (csv : Res frame)
  (output_dir output_file : pystr) (delay_between_requests : Q)
  (max_pages_to_test : Z) (to_csv save_statistics : Res unit) (w : world)
  : Res bool * world :=
  match cookies with
  | [] => (Ok false, w)
  | _ :: _ =>
      match csv with
      | Raise e => (Raise e, w)
      | Ok df =>
          if negb (has_column df "API_URL") then (Ok false, w)
          else if negb (has_column df "Location") then (Raise KeyError, w)
          else
            match locations_loop (unique (map Location (rows df))) df
                    delay_between_requests max_pages_to_test [] [] w with
            | (Raise e, w) => (Raise e, w)
            | (Ok ([], _), w) => (Ok false, w)
            | (Ok (all_weibo_data, location_stats), w) =>
                let output_path := os_path_join output_dir output_file in
                match to_csv with
                | Raise e => (Raise e, w)
                | Ok _ =>
                    let w := write_file output_path (DataCsv all_weibo_data) w in
                    match save_statistics with
                    | Raise e => (Raise e, w)
                    | Ok _ =>
                        (Ok true,
                         write_file (stats_file_of output_path)
                           (StatsTxt (stats w) location_stats) w)
                    end
                end
            end
      end
  end.

(** The whole function, with its [except Exception: return False]. *)
Definition collect_weibo_data_from_csv (cookies : pystr) (csv : Res frame)
  (output_dir output_file : pystr) (delay_between_requests : Q)
  (max_pages_to_test : Z) (to_csv save_statistics : Res unit) (w : world)
  : bool * world :=
  match collect_body cookies csv output_dir output_file
          delay_between_requests max_pages_to_test to_csv save_statistics w with
  | (Ok b, w) => (b, w)
  | (Raise _, w) => (false, w)
  end.

End Collect.

(** ** [WeiboURLGenerator.convert_cardlist_to_api_url] *)

Section UrlGenerator.

(** The characters that [\d] matches in a [str] pattern of the [re] module
    (the Unicode decimal digits). *)
Variable is_digit : pychar -> bool.

(** The length of the longest run of digits at the start of [s]. *)
Fixpoint digits_prefix (s : pystr) : nat :=
  match s with
  | c :: s' => if is_digit c then S (digits_prefix s') else O
  | [] => O
  end.

(** The length of the match of [&page=\d+] at the start of [s], if any. *)
Definition page_match (s : pystr) : option nat :=
  if starts_with (lit "&page=") s then
    match digits_prefix (skipn 6 s) with
    | O => None
    | S n => Some (6 + S n)%nat
    end
  else None.

(** [re.sub(r'&page=\d+', repl, s)] for a [repl] without backslashes:
    matches are found from the left and do not overlap; [skip] counts the
    characters of the current match that are still to be dropped. *)
Fixpoint sub_page_from (repl : pystr) (skip : nat) (s : pystr) : pystr :=
  match s with
  | [] => []
  | c :: s' =>
      match skip with
      | S k => sub_page_from repl k s'
      | O =>
          match page_match s with
          | Some n => repl ++ sub_page_from repl (n - 1) s'
          | None => c :: sub_page_from repl 0 s'
          end
      end
  end.

Definition re_sub_page (repl s : pystr) : pystr := sub_page_from repl 0 s.

Definition convert_cardlist_to_api_url (cardlist_url : pystr) (page : Z) : pystr :=
  let api_url :=
    replace (lit "/p/cardlist") (lit "/api/container/getIndex") cardlist_url in
  if contains (lit "&page=") api_url
  then re_sub_page (lit "&page=" ++ of_int page) api_url
  else api_url ++ lit "&page=" ++ of_int page.

End UrlGenerator.

(** ** [AmapCoordinateCollector]

    Floats stay abstract: [to_float] is [float(s)] ([None] where it raises
    [ValueError]), [round2] is [round(x, 2)] and [fmt2] is [f"{x:.2f}"]. *)

Module Amap.

Section Coordinates.

Variable float : Type.
Variable strip : pystr -> pystr.
Variable to_float : pystr -> option float.
Variable round2 : float -> float.
Variable fmt2 : float -> pystr.

(** What the browser session gives for one location: the search could not
    select it, a call raised (a timeout or another exception), or
    [txtCoordinate] was read, its [value] attribute being a string or
    [None]. *)
Inductive picker : Type :=
| SelectFailed
| PickerRaises (e : exn)
| CoordinateValue (v : option pystr).

Definition comma : pychar := 44%N.

(** [s.split(",")] *)
Fixpoint split_comma (cur : pystr) (s : pystr) : list pystr :=
  match s with
  | [] => [cur]
  | c :: s' =>
      if N.eqb c comma then cur :: split_comma [] s'
      else split_comma (cur ++ [c]) s'
  end.

(** [self.collected_coordinates], a dict from the key to a location name. *)
Definition coord_map := list (pystr * pystr).

Fixpoint lookup (m : coord_map) (k : pystr) : option pystr :=
  match m with
  | [] => None
  | (k', v) :: m' => if PyStr.eqb k' k then Some v else lookup m' k
  end.

(** [m[k] = v] *)
Fixpoint store (m : coord_map) (k v : pystr) : coord_map :=
  match m with
  | [] => [(k, v)]
  | (k', v') :: m' =>
      if PyStr.eqb k' k then (k', v) :: m' else (k', v') :: store m' k v
  end.

(** [f"{lng:.2f},{lat:.2f}"] *)
Definition coord_key (lng lat : float) : pystr :=
  fmt2 lng ++ [comma] ++ fmt2 lat.

(** [get_coordinates]: [Some (lat, lng)] stands for the pair it returns,
    [None] for [(None, None)]. *)
Definition get_coordinates (location_name : pystr) (p : picker)
  (collected_coordinates : coord_map)
  : option (float * float) * coord_map :=
  match p with
  | SelectFailed => (None, collected_coordinates)
  | PickerRaises _ => (None, collected_coordinates)
  | CoordinateValue None => (None, collected_coordinates)
  | CoordinateValue (Some coordinates) =>
      if match coordinates with [] => false | _ => true end
         && existsb (N.eqb comma) coordinates
      then
        match split_comma [] (strip coordinates) with
        | c0 :: c1 :: _ =>
            match to_float (strip c0) with
            | None => (None, collected_coordinates)
            | Some lng =>
                match to_float (strip c1) with
                | None => (None, collected_coordinates)
                | Some lat =>
                    let lat := round2 lat in
                    let lng := round2 lng in
                    let coord_key := coord_key lng lat in
                    match lookup collected_coordinates coord_key with
                    | Some _ => (None, collected_coordinates)
                    | None =>
                        (Some (lat, lng),
                         store collected_coordinates coord_key location_name)
                    end
                end
            end
        | _ => (None, collected_coordinates)
        end
      else (None, collected_coordinates)
  end.

(** [self.collected_coordinates] after [__init__]. *)
Definition init_collected : coord_map := [].

(** The pair [(lat, lng)], rounded, that the value read from the picker
    parses to, if it does. *)
Definition rounded_pair (p : picker) : option (float * float) :=
  match p with
  | CoordinateValue (Some coordinates) =>
      if match coordinates with [] => false | _ => true end
         && existsb (N.eqb comma) coordinates
      then
        match split_comma [] (strip coordinates) with
        | c0 :: c1 :: _ =>
            match to_float (strip c0), to_float (strip c1) with
            | Some lng, Some lat => Some (round2 lat, round2 lng)
            | _, _ => None
            end
        | _ => None
        end
      else None
  | _ => None
  end.

Record result_row : Type := {
  Location : pystr;
  Latitude : pystr;
  Longitude : pystr;
  Coordinates : pystr
}.

(** Lines 226-252 of [collect_coordinates_from_csv]: the loop over the rows,
    each with what the browser gives for it.  The pair that
    [get_coordinates] returns is a non-empty tuple, so [if coords:] always
    takes the first branch, and formatting [None] with [:.2f] raises
    [TypeError]. *)
Fixpoint collect_rows (locations : list (pystr * picker))
  (results : list result_row) (collected_coordinates : coord_map)
  : Res (list result_row) * coord_map :=
  match locations with
  | [] => (Ok results, collected_coordinates)
  | (raw_location, p) :: rest =>
      let location := strip raw_location in
      match get_coordinates location p collected_coordinates with
      | (Some (lat, lng), collected_coordinates) =>
          collect_rows rest
            (results ++ [ {| Location := location;
                             Latitude := fmt2 lat;
                             Longitude := fmt2 lng;
                             Coordinates := fmt2 lng ++ [comma] ++ fmt2 lat |} ])
            collected_coordinates
      | (None, collected_coordinates) => (Raise TypeError, collected_coordinates)
      end
  end.

(** [collect_coordinates_from_csv] once the input is read and the driver is
    set up: the flag it returns, the rows written to [output_csv] (if it
    gets that far), and the map of the collector afterwards. *)
Definition collect_coordinates_from_csv (locations : list (pystr * picker))
  (collected_coordinates : coord_map)
  : bool * option (list result_row) * coord_map :=
  match collect_rows locations [] collected_coordinates with
  | (Ok results, m) => (true, Some results, m)
  | (Raise _, m) => (false, None, m)
  end.

(** The row that a location gives when its picker value parses. *)
Definition row_of (entry : pystr * picker) : option result_row :=
  match rounded_pair (snd entry) with
  | Some (lat, lng) =>
      Some {| Location := strip (fst entry);
              Latitude := fmt2 lat;
              Longitude := fmt2 lng;
              Coordinates := coord_key lng lat |}
  | None => None
  end.

End Coordinates.

End Amap.

(** ** [WeiboURLGenerator]: from coordinates to the rows of the URL file *)

Module UrlGen.

Section Generator.

Variable is_digit : pychar -> bool.
Variable strip : pystr -> pystr.

(** [get_weibo_place_url]: [lng, lat = coordinates.split(',')] raises
    [ValueError] unless there are exactly two pieces, and the bare [except]
    turns that into [None]. *)
Definition get_weibo_place_url (coordinates : pystr) : option pystr :=
  match Amap.split_comma [] coordinates with
  | [lng; lat] =>
      Some (lit "https://place.weibo.com/wandermap/?maploc="
            ++ strip lng ++ [Amap.comma] ++ strip lat ++ lit ",12z")
  | _ => None
  end.

(** What the browser shows for a place URL: the driver cannot be started;
    the iframe is there, with its [src] attribute or without; waiting for
    the iframe raises, and the page source has these matches of the iframe
    pattern; or a call outside the inner [try] raises. *)
Inductive page_view : Type :=
| DriverUnavailable
| IframeFound (iframe_src : option pystr)
| IframeNotFound (iframe_matches : list pystr)
| ViewRaises.

Definition unescape_amp (url : pystr) : pystr :=
  replace (lit "&amp;") (lit "&") url.

Definition extract_cardlist_url_with_selenium (view : page_view) : option pystr :=
  match view with
  | DriverUnavailable => None
  | IframeFound (Some iframe_src) =>
      if match iframe_src with [] => false | _ => true end
         && contains (lit "cardlist") iframe_src
      then Some (unescape_amp iframe_src)
      else None
  | IframeFound None => None
  | IframeNotFound (first_match :: _) => Some (unescape_amp first_match)
  | IframeNotFound [] => None
  | ViewRaises => None
  end.

Record url_record : Type := {
  Location : pystr;
  URL_Type : pystr;
  API_URL : pystr;
  Page : Z;
  Coordinates : pystr;
  Cardlist_URL : pystr;
  Place_URL : pystr
}.

(** [generate_api_urls]; [max_pages] is accepted and not used. *)
Definition generate_api_urls (location_name coordinates : pystr)
  (max_pages : Z) (view : page_view) : list url_record :=
  match get_weibo_place_url coordinates with
  | None => []
  | Some place_url =>
      match extract_cardlist_url_with_selenium view with
      | Some cardlist_url =>
          [ {| Location := location_name;
               URL_Type := lit "container_api";
               API_URL := convert_cardlist_to_api_url is_digit cardlist_url 1;
               Page := 1;
               Coordinates := coordinates;
               Cardlist_URL := cardlist_url;
               Place_URL := place_url |} ]
      | None => []
      end
  end.

(** Lines 168-179 of [generate_urls_from_csv]: the loop over the rows, from
    row [idx] on; [view idx] is what the browser shows for row [idx].  A
    cell that is not a string has no [strip] ([AttributeError]). *)
Fixpoint url_rows_loop (idx : nat) (rows : list (cell * cell))
  (view : nat -> page_view) (max_pages : Z) (total_locations : nat)
  (all_urls : list url_record) (slept : list Q)
  : Res (list url_record) * list Q :=
  match rows with
  | [] => (Ok all_urls, slept)
  | (CellStr raw_location, CellStr raw_coordinates) :: rest =>
      let location := strip raw_location in
      let coordinates := strip raw_coordinates in
      let location_urls :=
        generate_api_urls location coordinates max_pages (view idx) in
      let all_urls := all_urls ++ location_urls in
      let slept := if (idx <? total_locations - 1)%nat
                   then slept ++ [2] else slept in
      url_rows_loop (S idx) rest view max_pages total_locations all_urls slept
  | _ :: _ => (Raise AttributeError, slept)
  end.

(** [generate_urls_from_csv]: the flag it returns, the rows written to
    [output_csv] if it gets that far, and the sleeps.  [csv] is what
    [pd.read_csv] gives (the column names and, for each row, its [Location]
    and [Coordinates] cells), [to_csv] whether the file can be written. *)
Definition generate_urls_from_csv
  (csv : Res (list pystr * list (cell * cell))) (view : nat -> page_view)
  (max_pages : Z) (to_csv : Res unit)
  : bool * option (list url_record) * list Q :=
  match csv with
  | Raise _ => (false, None, [])
  | Ok (columns, rows) =>
      if existsb (PyStr.eqb (lit "Location")) columns
         && existsb (PyStr.eqb (lit "Coordinates")) columns
      then
        match url_rows_loop 0 rows view max_pages (List.length rows) [] [] with
        | (Raise _, slept) => (false, None, slept)
        | (Ok all_urls, slept) =>
            match to_csv with
            | Raise _ => (false, None, slept)
            | Ok _ => (true, Some all_urls, slept)
            end
        end
      else (false, None, [])
  end.

End Generator.

End UrlGen.

(** ** [FileConverter.validate_coordinates_file]: the coordinate pattern *)

Module FileConverter.

Section Pattern.

(** What [\d] matches. *)
Variable is_digit : pychar -> bool.

Definition minus : pychar := 45%N.
Definition dot : pychar := 46%N.
Definition newline : pychar := 10%N.

(** [c?] at the start of [s]: the rest of [s]. *)
Definition skip_char (c : pychar) (s : pystr) : pystr :=
  match s with
  | x :: rest => if N.eqb x c then rest else s
  | [] => s
  end.

(** [\d*] at the start of [s]: the rest of [s]. *)
Definition skip_digits (s : pystr) : pystr :=
  skipn (digits_prefix is_digit s) s.

(** [-?\d+\.?\d*] at the start of [s]: the rest of [s] after the longest
    match, or [None] when [\d+] finds no digit.  (The next thing the
    pattern asks for is a comma or the end, which is neither [-], [.] nor a
    digit, so a shorter match never helps.) *)
Definition match_number (s : pystr) : option pystr :=
  let s := skip_char minus s in
  match digits_prefix is_digit s with
  | O => None
  | S _ => Some (skip_digits (skip_char dot (skip_digits s)))
  end.

(** [re.match(r'^-?\d+\.?\d*,-?\d+\.?\d*$', coords)] succeeds; [$] also
    matches just before a newline that ends the string. *)
Definition coordinates_match (coords : pystr) : bool :=
  match match_number coords with
  | Some (c :: rest) =>
      N.eqb c Amap.comma
      && match match_number rest with
         | Some [] => true
         | Some [x] => N.eqb x newline
         | _ => false
         end
  | _ => false
  end.

(** Lines 86-97: the columns are there and every row matches; [coords] are
    the [str(row['Coordinates'])] of the rows. *)
Definition validate_coordinates_file (columns : list pystr)
  (coords : list pystr) : bool :=
  if existsb (PyStr.eqb (lit "Location")) columns
     && existsb (PyStr.eqb (lit "Coordinates")) columns
  then forallb coordinates_match coords
  else false.

End Pattern.

End FileConverter.

(** ** The columns of the collected data *)

(** The keys of the record that [extract_mblog_info] builds, in the order
    in which they are set (lines 130-172). *)
Definition mblog_columns : list pystr :=
  [lit "mid"; lit "created_at"; lit "text"; lit "text_length"; lit "source";
   lit "favorited"; lit "reposts_count"; lit "comments_count";
   lit "attitudes_count"; lit "pic_num"; lit "user_id"; lit "screen_name";
   lit "follow_count"; lit "followers_count"; lit "statuses_count";
   lit "verified"; lit "verified_type"; lit "gender"; lit "retweeted_status";
   lit "is_long_text"; lit "pic_urls"; lit "coordinates"].

(** The keys of a post once [fetch_weibo_data_from_api] has set its
    [location] (line 318). *)
Definition post_columns : list pystr := mblog_columns ++ [lit "location"].

(** A post with the columns of the data file, collected for [location]. *)
Definition post_of_location (location : pystr) (post : record) : Prop :=
  map fst post = post_columns
  /\ dict_get post (lit "location") = Some (JStr location).

(** The [url] of every picture that is a dict is a string or falsy, so that
    ['; '.join] has only strings to join. *)
Definition pic_urls_joinable (mblog : list (pystr * json)) : bool :=
  match get_or mblog "pics" (JList []) with
  | JList pics =>
      forallb (fun pic =>
                 match pic with
                 | JDict p =>
                     let pic_url := get_or p "url" (JStr []) in
                     negb (truthy pic_url)
                     || match pic_url with JStr _ => true | _ => false end
                 | _ => true
                 end) pics
  | _ => true
  end.

(** The time slept, in all. *)
Definition total_sleep (durations : list Q) : Q := fold_right Qplus 0 durations.

(** The sum of the per-location counts of a statistics file. *)
Definition sum_counts (location_stats : list (pystr * Z)) : Z :=
  fold_right Z.add 0%Z (map snd location_stats).

(** What happened between two worlds of a run: the pages in [evs] were
    fetched with at most [bound] requests, every fetch was counted once, as
    successful or as failed, the posts counter grew by the posts that came
    back, every post belongs to the location of its page, and no file was
    written. *)
Definition accounts (w w' : world) (evs : list page_event) (bound : nat) : Prop :=
  trace w' = trace w ++ evs
  /\ files w' = files w
  /\ (List.length (gets w') <= List.length (gets w) + bound)%nat
  /\ (total_requests (stats w')
      = total_requests (stats w) + Z.of_nat (List.length evs))%Z
  /\ (successful_requests (stats w') + failed_requests (stats w')
      = successful_requests (stats w) + failed_requests (stats w)
        + Z.of_nat (List.length evs))%Z
  /\ (total_posts (stats w')
      = total_posts (stats w)
        + Z.of_nat (List.length (List.concat (map ev_posts evs))))%Z
  /\ Forall (fun e => Forall (post_of_location (ev_location e)) (ev_posts e)) evs.

(** ** Specification-side definitions

    These follow the wording of the specification rather than the source;
    the theorems below compare them with the functions above. *)

(** A well-formed success response: a dictionary with [ok == 1], whose
    [data] is a dictionary and whose [cards] is a list (a missing [data] or
    [cards] counts as empty, as [dict.get] with a default makes it). *)
Definition success_cards (json_data : json) : option (list json) :=
  match json_data with
  | JDict j =>
      if eq_int (get j "ok") 1 then
        match get_or j "data" (JDict []) with
        | JDict data =>
            match get_or data "cards" (JList []) with
            | JList cards => Some cards
            | _ => None
            end
        | _ => None
        end
      else None
  | _ => None
  end.

(** The [mblog] of a card or group item with [card_type == 9] and a
    non-empty dictionary [mblog] field. *)
Definition post_mblog (item : json) : list json :=
  match item with
  | JDict c =>
      if eq_int (get c "card_type") 9 then
        match get_or c "mblog" (JDict []) with
        | JDict (_ :: _) as mblog => [mblog]
        | _ => []
        end
      else []
  | _ => []
  end.

(** The group items of a card with [card_type == 11] whose [card_group] is a
    list. *)
Definition group_items (card : json) : list json :=
  match card with
  | JDict c =>
      if eq_int (get c "card_type") 11 then
        match get_or c "card_group" (JList []) with
        | JList card_group => card_group
        | _ => []
        end
      else []
  | _ => []
  end.

(** The mblogs that the specification counts, in the order of the cards and
    of the group items. *)
Definition qualifying_mblogs (cards : list json) : list json :=
  flat_map (fun card => post_mblog card ++ flat_map post_mblog (group_items card))
           cards.

(** The records of the longest prefix of results that are not exceptions. *)
Fixpoint ok_prefix (rs : list (Res record)) : list record :=
  match rs with
  | Ok r :: rest => r :: ok_prefix rest
  | _ => []
  end.

(** The first exception among the results, if any. *)
Fixpoint first_raise (rs : list (Res record)) : Res unit :=
  match rs with
  | [] => Ok tt
  | Ok _ :: rest => first_raise rest
  | Raise e :: _ => Raise e
  end.

(** The no-content response of the specification: a dictionary with [ok]
    equal to 0 and [msg] equal to the no-content message. *)
Definition is_no_content (json_data : json) : bool :=
  match json_data with
  | JDict j => eq_int (get j "ok") 0 && eq_str (get j "msg") no_content_msg
  | _ => false
  end.

(** [s.replace(old, new)] as a relation: the string is cut into occurrences
    of [old], taken as early as possible, and the characters between them. *)
Inductive Replaced (old new : pystr) : pystr -> pystr -> Prop :=
| Replaced_nil : Replaced old new [] []
| Replaced_hit s r :
    Replaced old new s r -> Replaced old new (old ++ s) (new ++ r)
| Replaced_keep c s r :
    starts_with old (c :: s) = false ->
    Replaced old new s r -> Replaced old new (c :: s) (c :: r).

(** Every occurrence of [&page=] followed by digits is rewritten to [repl]:
    an occurrence takes all the digits that follow, and a character that
    does not start one is kept. *)
Inductive PageRewritten (is_digit : pychar -> bool) (repl : pystr)
  : pystr -> pystr -> Prop :=
| PageRewritten_nil : PageRewritten is_digit repl [] []
| PageRewritten_hit d ds s r :
    forallb is_digit (d :: ds) = true ->
    match s with c :: _ => is_digit c = false | [] => True end ->
    PageRewritten is_digit repl s r ->
    PageRewritten is_digit repl (lit "&page=" ++ (d :: ds) ++ s) (repl ++ r)
| PageRewritten_keep c s r :
    (starts_with (lit "&page=") (c :: s) = false \/
     match skipn 6 (c :: s) with x :: _ => is_digit x = false | [] => True end) ->
    PageRewritten is_digit repl s r ->
    PageRewritten is_digit repl (c :: s) (c :: r).

(** The posts that came back from the pages fetched between two worlds. *)
Definition collected_since (w w' : world) : list record :=
  List.concat (map ev_posts (skipn (List.length (trace w)) (trace w'))).

(** Sample responses used to run the definitions. *)
Module Samples.

Definition mblog_with (mid : string) (text : json) : json :=
  JDict [(lit "mid", JStr (lit mid)); (lit "text", text)].

Definition post_card (mid : string) (text : json) : json :=
  JDict [(lit "card_type", JInt 9); (lit "mblog", mblog_with mid text)].

Definition group_card (items : list json) : json :=
  JDict [(lit "card_type", JInt 11); (lit "card_group", JList items)].

Definition response (cards : list json) : json :=
  JDict [(lit "ok", JInt 1); (lit "data", JDict [(lit "cards", JList cards)])].

Definition no_content : json :=
  JDict [(lit "ok", JInt 0); (lit "msg", JStr no_content_msg)].

(** A no-content response that also carries a card whose [card_type] is a
    list. *)
Definition no_content_with_list_card_type : json :=
  JDict [(lit "ok", JInt 0); (lit "msg", JStr no_content_msg);
         (lit "data",
          JDict [(lit "cards", JList [JDict [(lit "card_type", JList [])]])])].

(** A network that answers every request alike. *)
Definition always (out : attempt_outcome) : nat -> cell -> attempt_outcome :=
  fun _ _ => out.

(** A network that answers the requests of a run from a script. *)
Definition script (outs : list attempt_outcome) : nat -> cell -> attempt_outcome :=
  fun k _ => nth k outs (GetRaises RequestException).

(** A network that gives one page with one post and then the no-content
    response. *)
Definition one_post_then_end : nat -> cell -> attempt_outcome :=
  script [Response 200 (Json (response [post_card "a" (JStr (lit "hello"))]));
          Response 200 (Json no_content)].

Definition url_row (location : string) (page : Z) (url : cell) : csv_row :=
  {| Location := lit location; Page := page; API_URL := url;
     Coordinates := CellStr (lit "116.31,39.99") |}.

(** A frame with one location. *)
Definition one_location : frame :=
  {| columns := [lit "Location"; lit "Coordinates"; lit "Page"; lit "API_URL"];
     rows := [url_row "PKU" 1
                (CellStr (lit "https://m.weibo.cn/api/container/getIndex?id=1&page=1"))] |}.

(** A frame with two locations; the [API_URL] cell of the second one is
    empty in the file. *)
Definition two_locations : frame :=
  {| columns := [lit "Location"; lit "Coordinates"; lit "Page"; lit "API_URL"];
     rows := [url_row "PKU" 1
                (CellStr (lit "https://m.weibo.cn/api/container/getIndex?id=1&page=1"));
              url_row "THU" 1 (CellFloat FNaN)] |}.

Definition join_path (dir file : pystr) : pystr := dir ++ lit "/" ++ file.

(** Stand-ins for the float operations: a number is the length of its
    text. *)
Definition length_as_float (s : pystr) : option Z := Some (Z.of_nat (List.length s)).

Definition same_text : pystr -> pystr := fun s => s.

Definition same_number : Z -> Z := fun x => x.

(** The ASCII digits. *)
Definition ascii_digit (c : pychar) : bool := (48 <=? c)%N && (c <=? 57)%N.

Definition keep_text : pystr -> pystr := fun s => s.

Definition refuse_container : json -> Res pystr := fun _ => Raise TypeError.

(** An mblog with one picture, whose [url] is the given value. *)
Definition mblog_with_pic (url : json) : list (pystr * json) :=
  [(lit "mid", JStr (lit "a")); (lit "text", JStr (lit "hi"));
   (lit "pics", JList [JDict [(lit "url", url)]])].

(** A network whose first answer is lost and whose second one is a page
    with one post. *)
Definition fail_then_post : nat -> cell -> attempt_outcome :=
  script [GetRaises RequestException;
          Response 200 (Json (response [post_card "a" (JStr (lit "hello"))]))].

(** A browser that shows the same cardlist iframe for every place. *)
Definition cardlist_view : nat -> UrlGen.page_view :=
  fun _ => UrlGen.IframeFound
             (Some (lit "https://m.weibo.cn/p/cardlist?containerid=1&amp;x=2")).

(** A coordinates file with two places, and one whose second row has an
    empty [Coordinates] cell. *)
Definition places : list pystr * list (cell * cell) :=
  ([lit "Location"; lit "Coordinates"],
   [(CellStr (lit "PKU"), CellStr (lit "116.31,39.99"));
    (CellStr (lit "THU"), CellStr (lit "116.33,40.00"))]).

Definition places_with_empty_cell : list pystr * list (cell * cell) :=
  ([lit "Location"; lit "Coordinates"],
   [(CellStr (lit "PKU"), CellStr (lit "116.31,39.99"));
    (CellStr (lit "THU"), CellFloat FNaN)]).

End Samples.

(** * Properties *)

Module PyStrFacts.

Lemma eqb_eq s t : eqb s t = true <-> s = t.
Proof.
  revert t; induction s as [|a s IH]; intros [|b t]; simpl; split;
    try congruence; try reflexivity.
  - rewrite andb_true_iff, N.eqb_eq, IH. intros [-> ->]; reflexivity.
  - intros H; injection H as -> ->. now rewrite N.eqb_refl, (proj2 (IH t)).
Qed.

Lemma eqb_refl s : eqb s s = true.
Proof. now apply eqb_eq. Qed.

Lemma starts_with_app p s : starts_with p (p ++ s) = true.
Proof. induction p as [|a p IH]; simpl; [reflexivity|]. now rewrite N.eqb_refl. Qed.

Lemma starts_with_inv p s :
  starts_with p s = true -> exists r, s = p ++ r.
Proof.
  revert s; induction p as [|a p IH]; intros s H; simpl in *.
  - now exists s.
  - destruct s as [|b s]; [discriminate|].
    apply andb_true_iff in H as [Hab Hps]. apply N.eqb_eq in Hab as ->.
    destruct (IH _ Hps) as [r ->]. now exists r.
Qed.


Lemma contains_app_r p a b : contains p b = true -> contains p (a ++ b) = true.
Proof.
  intros H. induction a as [|c a IH]; simpl; [assumption|].
  fold (contains p (a ++ b)). rewrite IH. apply orb_true_r.
Qed.

End PyStrFacts.

Import PyStrFacts.

(** ** Extraction of posts from a response *)

Section ExtractionFacts.

Variable clean_text : pystr -> pystr.
Variable clean_container : json -> Res pystr.
Variable coordinates : json.

Local Arguments extract_mblog_info : simpl never.

Local Abbreviation mblog_info :=
  (fun mblog => extract_mblog_info clean_text clean_container mblog coordinates).
Local Abbreviation extract :=
  (fun json_data =>
     extract_weibo_info_from_json clean_text clean_container json_data coordinates).
Local Abbreviation step := (card_step clean_text clean_container coordinates).
Local Abbreviation item_step := (group_item_step clean_text clean_container coordinates).

(** [v == 9] and [v == 11] exclude each other, as do [v == 0] and [v == 1]. *)
Lemma eq_int_functional v a b : eq_int v a = true -> eq_int v b = true -> a = b.
Proof.
  destruct v as [| bv | z | [| |q] | | |]; cbn [eq_int]; try discriminate.
  - intros H1 H2. apply Z.eqb_eq in H1, H2. congruence.
  - intros H1 H2. apply Z.eqb_eq in H1, H2. congruence.
  - intros H1 H2. apply Qeq_bool_iff in H1, H2.
    rewrite H1 in H2. unfold Qeq in H2. simpl in H2. lia.
Qed.

Lemma eq_int_exclusive v a b : a <> b -> eq_int v a = true -> eq_int v b = false.
Proof.
  intros Hab Ha. destruct (eq_int v b) eqn:Hb; [|reflexivity].
  exfalso. apply Hab. eapply eq_int_functional; eassumption.
Qed.

(** Running the loop body on the outcome of [extract_mblog_info] for each
    mblog of a list: the posts of the successful prefix are appended, and
    the first exception ends the run. *)
Lemma for_each_results (mblogs : list json) (posts : list record) :
  for_each (fun mblog => bind (lift (mblog_info mblog)) append) mblogs posts
  = (first_raise (map mblog_info mblogs),
     posts ++ ok_prefix (map mblog_info mblogs)).
Proof.
  revert posts. induction mblogs as [|m ms IH]; intros posts; simpl.
  - unfold ret. now rewrite app_nil_r.
  - unfold bind at 1. unfold bind at 1. unfold lift at 1.
    destruct (extract_mblog_info clean_text clean_container m coordinates)
      as [r|e]; simpl.
    + rewrite IH. now rewrite <- app_assoc.
    + now rewrite app_nil_r.
Qed.

Lemma for_each_app {A} (body : A -> Loop unit) (l1 l2 : list A) posts :
  for_each body (l1 ++ l2) posts
  = bind (for_each body l1) (fun _ => for_each body l2) posts.
Proof.
  revert posts. induction l1 as [|x l1 IH]; intros posts; simpl.
  - reflexivity.
  - unfold bind in *. destruct (body x posts) as [[[]|e] posts']; simpl.
    + rewrite IH. reflexivity.
    + reflexivity.
Qed.

(** A card or group item at [card_type == 9] does what the loop body does
    on its mblog, if it counts. *)
Lemma collect_mblog_results (c : list (pystr * json)) posts :
  eq_int (get c "card_type") 9 = true ->
  collect_mblog clean_text clean_container c coordinates posts
  = for_each (fun mblog => bind (lift (mblog_info mblog)) append)
      (post_mblog (JDict c)) posts.
Proof.
  intros H9. unfold collect_mblog, post_mblog. rewrite H9.
  destruct (get_or c "mblog" (JDict [])) as [| | | | | |[|kv d]]; simpl;
    try reflexivity.
  unfold bind, lift, ret.
  destruct (extract_mblog_info clean_text clean_container (JDict (kv :: d))
              coordinates); reflexivity.
Qed.

Lemma item_step_results (item : json) posts :
  item_step item posts
  = for_each (fun mblog => bind (lift (mblog_info mblog)) append)
      (post_mblog item) posts.
Proof.
  destruct item as [| | | | | |g]; try reflexivity.
  unfold group_item_step.
  destruct (eq_int (get g "card_type") 9) eqn:H9.
  - now apply collect_mblog_results.
  - unfold post_mblog. rewrite H9. reflexivity.
Qed.

Lemma group_results (items : list json) posts :
  for_each item_step items posts
  = for_each (fun mblog => bind (lift (mblog_info mblog)) append)
      (flat_map post_mblog items) posts.
Proof.
  revert posts. induction items as [|g gs IH]; intros posts; simpl.
  - reflexivity.
  - rewrite for_each_app. unfold bind. rewrite item_step_results.
    destruct (for_each _ (post_mblog g) posts) as [[[]|e] posts']; simpl.
    + apply IH.
    + reflexivity.
Qed.

Lemma card_step_results (card : json) posts :
  step card posts
  = for_each (fun mblog => bind (lift (mblog_info mblog)) append)
      (post_mblog card ++ flat_map post_mblog (group_items card)) posts.
Proof.
  destruct card as [| | | | | |c]; try reflexivity.
  unfold card_step.
  destruct (eq_int (get c "card_type") 9) eqn:H9.
  - assert (H11 : eq_int (get c "card_type") 11 = false)
      by (eapply eq_int_exclusive; [|exact H9]; lia).
    unfold group_items. rewrite H11. rewrite app_nil_r.
    now apply collect_mblog_results.
  - unfold post_mblog, group_items. rewrite H9. simpl.
    destruct (eq_int (get c "card_type") 11); [|reflexivity].
    destruct (get_or c "card_group" (JList [])); try reflexivity.
    apply group_results.
Qed.

Lemma cards_results (cards : list json) posts :
  for_each step cards posts
  = (first_raise (map mblog_info (qualifying_mblogs cards)),
     posts ++ ok_prefix (map mblog_info (qualifying_mblogs cards))).
Proof.
  rewrite <- for_each_results. unfold qualifying_mblogs.
  revert posts. induction cards as [|c cs IH]; intros posts; simpl.
  - reflexivity.
  - rewrite for_each_app. unfold bind. rewrite card_step_results.
    destruct (for_each _ (post_mblog c ++ _) posts) as [[[]|e] posts']; simpl.
    + apply IH.
    + reflexivity.
Qed.

(** The function on a well-formed success response. *)
Lemma extract_success (json_data : json) (cards : list json) :
  success_cards json_data = Some cards ->
  extract json_data
  = Ok (ok_prefix (map mblog_info (qualifying_mblogs cards))).
Proof.
  unfold success_cards, extract_weibo_info_from_json, extract_body.
  destruct json_data as [| | | | | |j]; try discriminate.
  destruct (eq_int (get j "ok") 1) eqn:H1; [|discriminate].
  assert (H0 : eq_int (get j "ok") 0 = false)
    by (eapply eq_int_exclusive; [|exact H1]; lia).
  rewrite H0. simpl.
  destruct (get_or j "data" (JDict [])) as [| | | | | |data]; try discriminate.
  destruct (get_or data "cards" (JList [])) as [| | | | |cs|]; try discriminate.
  intros H; injection H as <-.
  unfold bind. rewrite cards_results. simpl.
  destruct (first_raise _); reflexivity.
Qed.

(** The function on anything else. *)
Lemma extract_not_success (json_data : json) :
  success_cards json_data = None -> extract json_data = Ok [].
Proof.
  unfold success_cards, extract_weibo_info_from_json, extract_body.
  destruct json_data as [| | | | | |j]; try reflexivity.
  destruct (eq_int (get j "ok") 0 && eq_str (get j "msg") no_content_msg);
    [reflexivity|].
  destruct (eq_int (get j "ok") 1); [|reflexivity]. simpl.
  destruct (get_or j "data" (JDict [])) as [| | | | | |data]; try reflexivity.
  destruct (get_or data "cards" (JList [])) as [| | | | |cs|]; try reflexivity.
  discriminate.
Qed.

Lemma extract_total (json_data : json) :
  exists posts, extract json_data = Ok posts.
Proof.
  destruct (success_cards json_data) as [cards|] eqn:H.
  - eexists. exact (extract_success json_data H).
  - eexists. exact (extract_not_success json_data H).
Qed.

Lemma qualifying_skip_card (before after : list json) (card : json) :
  is_dict card = false ->
  qualifying_mblogs (before ++ card :: after) = qualifying_mblogs (before ++ after).
Proof.
  intros H. unfold qualifying_mblogs. rewrite !flat_map_app. simpl.
  destruct card; try discriminate; reflexivity.
Qed.

Lemma qualifying_skip_item (before after : list json) (c1 c2 : list (pystr * json))
  (items_before items_after : list json) (item : json) :
  eq_int (get c1 "card_type") 11 = true ->
  eq_int (get c2 "card_type") 11 = true ->
  get_or c1 "card_group" (JList []) = JList (items_before ++ item :: items_after) ->
  get_or c2 "card_group" (JList []) = JList (items_before ++ items_after) ->
  is_dict item = false ->
  qualifying_mblogs (before ++ JDict c1 :: after)
  = qualifying_mblogs (before ++ JDict c2 :: after).
Proof.
  intros T1 T2 G1 G2 H. unfold qualifying_mblogs. rewrite !flat_map_app. simpl.
  assert (N1 : eq_int (get c1 "card_type") 9 = false)
    by (eapply eq_int_exclusive; [|exact T1]; lia).
  assert (N2 : eq_int (get c2 "card_type") 9 = false)
    by (eapply eq_int_exclusive; [|exact T2]; lia).
  rewrite N1, N2, T1, T2, G1, G2. simpl. rewrite !flat_map_app. simpl.
  destruct item; try discriminate; reflexivity.
Qed.

Lemma ok_prefix_all {A} (f : A -> Res record) (l : list A) :
  first_raise (map f l) = Ok tt ->
  Forall2 (fun x r => f x = Ok r) l (ok_prefix (map f l)).
Proof.
  induction l as [|x l IH]; simpl; intros H.
  - constructor.
  - destruct (f x) as [r|e] eqn:Hx; [|discriminate].
    constructor; [assumption | now apply IH].
Qed.

(** C4. [extract_weibo_info_from_json] returns a list for every JSON value
    and never raises.  It returns the empty list when the value is not a
    dictionary, when its [ok] field is not 1, when its [data] field is not a
    dictionary and when the [cards] field of [data] is not a list.  A card
    that is not a dictionary, and a group item that is not a dictionary, is
    skipped: the result is the same as for the response without it. *)
Theorem extract_weibo_info_from_json_defensive :
  (forall json_data, exists posts, extract json_data = Ok posts)
  /\ (forall json_data, is_dict json_data = false -> extract json_data = Ok [])
  /\ (forall j, eq_int (get j "ok") 1 = false -> extract (JDict j) = Ok [])
  /\ (forall j, is_dict (get_or j "data" (JDict [])) = false ->
        extract (JDict j) = Ok [])
  /\ (forall j data,
        get_or j "data" (JDict []) = JDict data ->
        is_list (get_or data "cards" (JList [])) = false ->
        extract (JDict j) = Ok [])
  /\ (forall response response' before card after,
        success_cards response = Some (before ++ card :: after) ->
        success_cards response' = Some (before ++ after) ->
        is_dict card = false ->
        extract response = extract response')
  /\ (forall response response' before c c' after items_before item items_after,
        success_cards response = Some (before ++ JDict c :: after) ->
        success_cards response' = Some (before ++ JDict c' :: after) ->
        eq_int (get c "card_type") 11 = true ->
        eq_int (get c' "card_type") 11 = true ->
        get_or c "card_group" (JList [])
          = JList (items_before ++ item :: items_after) ->
        get_or c' "card_group" (JList [])
          = JList (items_before ++ items_after) ->
        is_dict item = false ->
        extract response = extract response').
Proof.
  split; [exact extract_total|].
  split.
  { intros json_data H. apply extract_not_success.
    destruct json_data; try reflexivity; discriminate. }
  split.
  { intros j H. apply extract_not_success. unfold success_cards. now rewrite H. }
  split.
  { intros j H. apply extract_not_success. unfold success_cards.
    destruct (eq_int (get j "ok") 1); [|reflexivity].
    destruct (get_or j "data" (JDict [])); try reflexivity; discriminate. }
  split.
  { intros j data Hd H. apply extract_not_success. unfold success_cards.
    destruct (eq_int (get j "ok") 1); [|reflexivity]. rewrite Hd.
    destruct (get_or data "cards" (JList [])); try reflexivity; discriminate. }
  split.
  { intros response response' before card after H H' Hc.
    rewrite (extract_success _ H), (extract_success _ H').
    now rewrite (qualifying_skip_card before after card Hc). }
  intros response response' before c c' after ib item ia H H' T T' G G' Hi.
  rewrite (extract_success _ H), (extract_success _ H').
  now rewrite (qualifying_skip_item before after c c' ib ia item T T' G G' Hi).
Qed.

(** C5, as amended.  On a well-formed success response the function returns,
    in the order of the cards and group items, the records that
    [extract_mblog_info] makes of the qualifying mblogs, up to the first
    mblog on which [extract_mblog_info] raises; when it raises on none,
    that is exactly one record per qualifying mblog. *)
Theorem extract_weibo_info_from_json_records (json_data : json) (cards : list json) :
  success_cards json_data = Some cards ->
  extract json_data = Ok (ok_prefix (map mblog_info (qualifying_mblogs cards)))
  /\ (first_raise (map mblog_info (qualifying_mblogs cards)) = Ok tt ->
      exists records,
        extract json_data = Ok records
        /\ Forall2 (fun mblog r => mblog_info mblog = Ok r)
             (qualifying_mblogs cards) records).
Proof.
  intros H. split; [exact (extract_success json_data H)|].
  intros Hall. eexists. split; [exact (extract_success json_data H)|].
  exact (ok_prefix_all mblog_info (qualifying_mblogs cards) Hall).
Qed.

End ExtractionFacts.

Lemma extract_weibo_info_from_json_defensive_witness :
  let extract := extract_weibo_info_from_json Samples.keep_text
                   Samples.refuse_container in
  let a := Samples.post_card "a" (JStr (lit "first")) in
  let b := Samples.post_card "b" (JStr (lit "second")) in
  let g := Samples.post_card "g" (JStr (lit "grouped")) in
  extract (JList []) JNull = Ok []
  /\ extract (JDict [(lit "ok", JInt 2)]) JNull = Ok []
  /\ extract (JDict [(lit "ok", JInt 1); (lit "data", JInt 7)]) JNull = Ok []
  /\ extract (JDict [(lit "ok", JInt 1);
                     (lit "data", JDict [(lit "cards", JNull)])]) JNull = Ok []
  /\ extract (Samples.response [a; JInt 3; b]) JNull
     = extract (Samples.response [a; b]) JNull
  /\ extract (Samples.response [a; Samples.group_card [JNull; g]; b]) JNull
     = extract (Samples.response [a; Samples.group_card [g]; b]) JNull.
Proof.
  intros extract a b g.
  destruct (extract_weibo_info_from_json_defensive Samples.keep_text
              Samples.refuse_container JNull)
    as (_ & NotDict & NotOk & NoData & NoCards & SkipCard & SkipItem).
  split; [apply NotDict; reflexivity|].
  split; [apply NotOk; reflexivity|].
  split; [apply NoData; reflexivity|].
  split; [eapply NoCards; reflexivity|].
  split.
  - apply (SkipCard _ _ [a] (JInt 3) [b]); reflexivity.
  - apply (SkipItem _ _ [a]
             [(lit "card_type", JInt 11); (lit "card_group", JList [JNull; g])]
             [(lit "card_type", JInt 11); (lit "card_group", JList [g])]
             [b] [] JNull [g]); reflexivity.
Defined.

Lemma extract_weibo_info_from_json_records_witness :
  let cards := [Samples.post_card "a" (JStr (lit "first"));
                Samples.group_card [Samples.post_card "g" (JStr (lit "grouped"))]] in
  success_cards (Samples.response cards) = Some cards
  /\ exists records,
       extract_weibo_info_from_json Samples.keep_text Samples.refuse_container
         (Samples.response cards) JNull = Ok records
       /\ List.length records = 2%nat.
Proof.
  intros cards. split; [reflexivity|].
  destruct (extract_weibo_info_from_json_records Samples.keep_text
              Samples.refuse_container JNull (Samples.response cards)
              (cards := cards) eq_refl) as [Heq _].
  eexists. split; [exact Heq|]. reflexivity.
Defined.

(** C5 as stated fails: a card whose mblog has a number for its [text]
    makes [extract_mblog_info] raise, and the record is not produced. *)
Lemma extract_weibo_info_from_json_records_counterexample :
  ~ (forall clean_text clean_container json_data coordinates cards,
       success_cards json_data = Some cards ->
       exists records,
         extract_weibo_info_from_json clean_text clean_container json_data
           coordinates = Ok records
         /\ Forall2
              (fun mblog r =>
                 extract_mblog_info clean_text clean_container mblog
                   coordinates = Ok r)
              (qualifying_mblogs cards) records).
Proof.
  intros H.
  destruct (H Samples.keep_text Samples.refuse_container
              (Samples.response [Samples.post_card "a" (JInt 5)]) JNull
              [Samples.post_card "a" (JInt 5)] eq_refl)
    as (records & Hrun & Hall).
  vm_compute in Hrun. injection Hrun as <-.
  vm_compute in Hall. inversion Hall.
Qed.

(** ** The retry loop of [fetch_weibo_data_from_api] *)

Section FetchFacts.

Variable clean_text : pystr -> pystr.
Variable clean_container : json -> Res pystr.
Variable net : nat -> cell -> attempt_outcome.
Variable location : pystr.
Variable coordinates : json.

Local Arguments extract_mblog_info : simpl never.
Local Arguments Z.sub : simpl never.
Local Arguments Z.add : simpl never.
Local Arguments Z.ltb : simpl never.

(** What the [i]-th attempt of a call that starts in world [w] comes to. *)
Local Abbreviation attempt_at w api_url i :=
  (run_attempt clean_text clean_container
     (net (List.length (gets w) + i) api_url) location coordinates).

Local Abbreviation fetch :=
  (fun api_url page retry_count delay w =>
     fetch_weibo_data_from_api clean_text clean_container net api_url location
       page coordinates retry_count delay w).

(** The loop entered at [attempt] makes [m] requests, of which the first
    [m - 1] fail and are each followed by a sleep; the last one either
    gives the page that is returned or is the failure of the last attempt. *)
Lemma attempts_spec (remaining : nat) :
  forall (attempt : Z) (api_url : cell) (retry_count : Z) (delay : Q)
         (w : world) res w',
    remaining = Z.to_nat (retry_count - attempt) ->
    (0 <= attempt < retry_count)%Z ->
    attempts clean_text clean_container net remaining attempt api_url location
      coordinates retry_count delay w = (res, w') ->
    exists m : nat,
      (1 <= m <= remaining)%nat
      /\ gets w' = gets w ++ repeat api_url m
      /\ sleeps w' = sleeps w ++
           map (fun i => delay * inject_Z (attempt + Z.of_nat i + 1))
               (seq 0 (m - 1))
      /\ trace w' = trace w
      /\ files w' = files w
      /\ (forall i, (i < m - 1)%nat -> attempt_at w api_url i = Failure)
      /\ match attempt_at w api_url (m - 1) with
         | Fetched weibo_posts is_end_of_data =>
             res = (weibo_posts, is_end_of_data)
             /\ stats w' = incr_successful (Z.of_nat (List.length weibo_posts))
                             (stats w)
         | Failure =>
             m = remaining /\ res = ([], false)
             /\ stats w' = incr_failed (stats w)
         end.
Proof.
  induction remaining as [|r IH]; intros attempt api_url retry_count delay w res w'
    Hrem Hrange Hrun.
  - lia.
  - simpl in Hrun.
    destruct (run_attempt clean_text clean_container
                (net (List.length (gets w)) api_url) location coordinates)
      as [weibo_posts is_end_of_data|] eqn:Hout.
    + injection Hrun as <- <-. exists 1%nat. simpl.
      rewrite Nat.add_0_r, Hout, app_nil_r.
      repeat split; try reflexivity; try lia.
    + destruct (attempt <? retry_count - 1)%Z eqn:Hlt.
      * apply Z.ltb_lt in Hlt.
        apply IH in Hrun; [|lia|lia].
        destruct Hrun as (m & Hm & Hgets & Hsleeps & Htrace & Hfiles & Hfail & Hlast).
        simpl in Hgets, Hsleeps, Htrace, Hfiles.
        exists (S m). simpl gets in *. simpl List.length in *.
        rewrite length_app in Hfail, Hlast. simpl in Hfail, Hlast.
        split; [lia|].
        split; [rewrite Hgets, <- app_assoc; reflexivity|].
        split.
        { rewrite Hsleeps, <- app_assoc. f_equal.
          replace (S m - 1)%nat with (S (m - 1)) by lia.
          simpl. f_equal; [f_equal; f_equal; lia|].
          rewrite <- seq_shift, map_map. apply map_ext. intros i.
          f_equal. f_equal. lia. }
        split; [assumption|]. split; [assumption|].
        split.
        { intros i Hi. destruct i as [|i].
          - now rewrite Nat.add_0_r.
          - replace (List.length (gets w) + S i)%nat
              with (List.length (gets w) + 1 + i)%nat by lia.
            apply Hfail. lia. }
        replace (S m - 1)%nat with (S (m - 1)) by lia.
        replace (List.length (gets w) + S (m - 1))%nat
          with (List.length (gets w) + 1 + (m - 1))%nat by lia.
        revert Hlast.
        destruct (run_attempt clean_text clean_container
                    (net (List.length (gets w) + 1 + (m - 1)) api_url)
                    location coordinates); intros Hlast; [assumption|].
        destruct Hlast as (-> & ? & ?). repeat split; assumption.
      * apply Z.ltb_ge in Hlt. injection Hrun as <- <-.
        exists 1%nat. simpl. rewrite Nat.add_0_r, Hout, app_nil_r.
        repeat split; try reflexivity; lia.
Qed.

(** The same for a whole call with [retry_count >= 1]. *)
Lemma fetch_spec (api_url : cell) (page retry_count : Z) (delay : Q)
  (w : world) res w' :
  (1 <= retry_count)%Z ->
  fetch api_url page retry_count delay w = (res, w') ->
  exists m : nat,
    (1 <= m <= Z.to_nat retry_count)%nat
    /\ gets w' = gets w ++ repeat api_url m
    /\ sleeps w' = sleeps w ++
         map (fun i => delay * inject_Z (Z.of_nat i + 1)) (seq 0 (m - 1))
    /\ trace w' = trace w
    /\ files w' = files w
    /\ (forall i, (i < m - 1)%nat -> attempt_at w api_url i = Failure)
    /\ match attempt_at w api_url (m - 1) with
       | Fetched weibo_posts is_end_of_data =>
           res = (weibo_posts, is_end_of_data)
           /\ stats w' = incr_successful (Z.of_nat (List.length weibo_posts))
                           (incr_total (stats w))
       | Failure =>
           m = Z.to_nat retry_count /\ res = ([], false)
           /\ stats w' = incr_failed (incr_total (stats w))
       end.
Proof.
  intros Hn Hrun. unfold fetch_weibo_data_from_api in Hrun.
  apply attempts_spec in Hrun; [|f_equal; lia|lia].
  destruct Hrun as (m & Hm & Hgets & Hsleeps & Htrace & Hfiles & Hfail & Hlast).
  exists m. simpl in *.
  assert (Hsl : sleeps w' = sleeps w ++
            map (fun i => delay * inject_Z (Z.of_nat i + 1)) (seq 0 (m - 1))).
  { exact Hsleeps. }
  tauto.
Qed.



(** A 200 response whose JSON body is not a dictionary makes the attempt
    fail: [json_data.get] raises after the extraction has returned. *)
Lemma non_dict_attempt_fails (json_data : json) :
  is_dict json_data = false ->
  extract_weibo_info_from_json clean_text clean_container json_data coordinates
    = Ok []
  /\ end_of_data_flag json_data = Raise AttributeError
  /\ run_attempt clean_text clean_container (Response 200 (Json json_data))
       location coordinates = Failure.
Proof.
  intros H.
  assert (E : extract_weibo_info_from_json clean_text clean_container json_data
                coordinates = Ok []).
  { apply extract_not_success. destruct json_data; try reflexivity; discriminate. }
  split; [exact E|].
  split; [destruct json_data; try reflexivity; discriminate|].
  unfold run_attempt, read_response. simpl (200 =? 200)%Z. cbv iota.
  rewrite E. destruct json_data; try reflexivity; discriminate.
Qed.


(** The flag is raised only by a no-content response: an attempt that
    gives [True] for the end of data has received a 200 response whose body
    is such a dictionary, and it gives no posts. *)
Lemma run_attempt_end_of_data (out : attempt_outcome) (weibo_posts : list record) :
  run_attempt clean_text clean_container out location coordinates
    = Fetched weibo_posts true ->
  weibo_posts = []
  /\ exists json_data,
       out = Response 200 (Json json_data) /\ is_no_content json_data = true.
Proof.
  unfold run_attempt. destruct out as [e|status_code [|json_data]];
    try discriminate.
  - destruct (status_code =? 200)%Z; discriminate.
  - destruct (status_code =? 200)%Z eqn:Hs; [|discriminate].
    apply Z.eqb_eq in Hs. subst status_code. unfold read_response.
    destruct (log_response_structure json_data) as [u|e];
      [|destruct e; discriminate].
    destruct (extract_weibo_info_from_json clean_text clean_container json_data
                coordinates) as [posts|e] eqn:He; [|destruct e; discriminate].
    destruct (end_of_data_flag json_data) as [flag|e] eqn:Hf;
      [|destruct e; discriminate].
    cbv iota. intros H. injection H as <- ->.
    destruct json_data as [| | | | | |j]; try discriminate Hf.
    simpl in Hf. injection Hf as Hf.
    unfold extract_weibo_info_from_json, extract_body in He.
    rewrite Hf in He. injection He as <-.
    split; [reflexivity|]. exists (JDict j). split; [reflexivity|exact Hf].
Qed.

Lemma fetch_end_of_data_sound (api_url : cell) (page retry_count : Z)
  (delay : Q) (w : world) weibo_posts w' :
  (1 <= retry_count)%Z ->
  fetch api_url page retry_count delay w = ((weibo_posts, true), w') ->
  weibo_posts = []
  /\ exists (i : nat) (json_data : json),
       (i < Z.to_nat retry_count)%nat
       /\ net (List.length (gets w) + i) api_url = Response 200 (Json json_data)
       /\ is_no_content json_data = true.
Proof.
  intros Hn Hrun.
  destruct (@fetch_spec api_url page retry_count delay w _ _ Hn Hrun)
    as (m & Hm & _ & _ & _ & _ & _ & Hlast).
  destruct (run_attempt clean_text clean_container
              (net (List.length (gets w) + (m - 1)) api_url) location coordinates)
    as [posts flag|] eqn:Hout.
  - destruct Hlast as (Hres & _). injection Hres as <- <-.
    destruct (run_attempt_end_of_data _ Hout) as (-> & json_data & E & Hnc).
    split; [reflexivity|]. exists (m - 1)%nat, json_data.
    split; [lia|]. now split.
  - destruct Hlast as (_ & Hres & _). discriminate.
Qed.

End FetchFacts.




(** C3 at its failing input.  The response has status 200 and its body is a
    dictionary with [ok] equal to 0 and [msg] equal to the no-content
    message, yet the call returns [False] for the end of data and counts a
    failed request: counting the card types for the debug log raises on the
    card whose [card_type] is a list, which sends every attempt to the
    [except Exception] clause.  The same response without that card gives
    [True]. *)
Theorem fetch_weibo_data_from_api_end_flag_lost :
  let fetch_from body :=
    fetch_weibo_data_from_api Samples.keep_text Samples.refuse_container
      (Samples.always (Response 200 (Json body)))
      (CellStr (lit "u")) (lit "PKU") 1 JNull 3 1 init_world in
  is_no_content Samples.no_content_with_list_card_type = true
  /\ extract_weibo_info_from_json Samples.keep_text Samples.refuse_container
       Samples.no_content_with_list_card_type JNull = Ok []
  /\ log_response_structure Samples.no_content_with_list_card_type
     = Raise TypeError
  /\ fst (fetch_from Samples.no_content_with_list_card_type) = ([], false)
  /\ failed_requests (stats (snd (fetch_from Samples.no_content_with_list_card_type)))
     = 1%Z
  /\ List.length (gets (snd (fetch_from Samples.no_content_with_list_card_type)))
     = 3%nat
  /\ fst (fetch_from Samples.no_content) = ([], true).
Proof.
  intros fetch_from. repeat split; vm_compute; reflexivity.
Qed.

(** ** The page loop of [collect_weibo_data_from_csv] *)

Section CollectFacts.

Variable clean_text : pystr -> pystr.
Variable clean_container : json -> Res pystr.
Variable net : nat -> cell -> attempt_outcome.
Variable os_path_join : pystr -> pystr -> pystr.

Local Arguments fetch_weibo_data_from_api : simpl never.

Lemma fetch_keeps_trace_and_files (api_url : cell) (location : pystr)
  (page : Z) (coordinates : json) (retry_count : Z) (delay : Q) (w : world)
  res w' :
  (1 <= retry_count)%Z ->
  fetch_weibo_data_from_api clean_text clean_container net api_url location
    page coordinates retry_count delay w = (res, w') ->
  trace w' = trace w /\ files w' = files w.
Proof.
  intros Hn Hrun.
  destruct (@fetch_spec clean_text clean_container net location coordinates
              api_url page retry_count delay w res w' Hn Hrun)
    as (m & _ & _ & _ & Htrace & Hfiles & _).
  now split.
Qed.

(** The loop entered at [page] with [remaining] pages to go fetches the
    pages [page], [page + 1], ... one after the other and stops at the first
    one that comes back with the end-of-data flag, or when the pages run
    out. *)
Lemma page_loop_spec (remaining : nat) :
  forall (page : Z) (location_df : list csv_row) (current_max_page : Z)
         (base : pystr) (location : pystr) (coordinates : json) (delay : Q)
         (location_posts : list record) (w : world) posts' w',
    page_loop clean_text clean_container net remaining page location_df
      current_max_page base location coordinates delay location_posts w
    = (posts', w') ->
    exists evs : list page_event,
      trace w' = trace w ++ evs
      /\ files w' = files w
      /\ (List.length evs <= remaining)%nat
      /\ map ev_page evs
         = map (fun i => (page + Z.of_nat i)%Z) (seq 0 (List.length evs))
      /\ Forall (fun e => ev_location e = location) evs
      /\ (forall i e, nth_error evs i = Some e ->
                      (S i < List.length evs)%nat -> ev_end_of_data e = false)
      /\ (List.length evs = remaining
          \/ exists e, nth_error evs (List.length evs - 1) = Some e
                       /\ ev_end_of_data e = true)
      /\ posts' = location_posts ++ List.concat (map ev_posts evs).
Proof.
  induction remaining as [|r IH];
    intros page location_df current_max_page base location coordinates delay
           location_posts w posts' w' Hrun.
  - simpl in Hrun. injection Hrun as <- <-. exists [].
    rewrite !app_nil_r. repeat split; auto.
    intros i e Hi. destruct i; discriminate.
  - simpl in Hrun.
    destruct (fetch_weibo_data_from_api clean_text clean_container net
                (page_url location_df current_max_page base page) location
                page coordinates 3 delay w)
      as [[weibo_posts is_end_of_data] w1] eqn:Hfetch.
    apply fetch_keeps_trace_and_files in Hfetch; [|lia].
    destruct Hfetch as [Htrace Hfiles].
    set (e := {| ev_location := location; ev_page := page;
                 ev_posts := weibo_posts;
                 ev_end_of_data := is_end_of_data |}) in *.
    assert (Hposts : match weibo_posts with
                     | [] => location_posts
                     | _ :: _ => location_posts ++ weibo_posts
                     end = location_posts ++ weibo_posts).
    { destruct weibo_posts; [now rewrite app_nil_r|reflexivity]. }
    rewrite Hposts in Hrun. clear Hposts.
    destruct is_end_of_data eqn:Hend.
    + injection Hrun as <- <-. exists [e]. simpl.
      rewrite Htrace, Hfiles, Z.add_0_r, app_nil_r.
      repeat split; auto; try lia; try (intros i e0 _ Hi; lia).
      right. exists e. now split.
    + apply IH in Hrun.
      destruct Hrun as (evs & Ht & Hf & Hlen & Hpages & Hloc & Hflags & Hstop & Hp).
      assert (Ht1 : trace w' = trace w ++ e :: evs).
      { rewrite Ht. destruct (Qle_bool delay 0); simpl; rewrite Htrace;
          now rewrite <- app_assoc. }
      assert (Hf1 : files w' = files w).
      { rewrite Hf. destruct (Qle_bool delay 0); simpl; exact Hfiles. }
      exists (e :: evs). simpl.
      split; [exact Ht1|]. split; [exact Hf1|]. split; [lia|].
      split.
      { rewrite Z.add_0_r. f_equal. rewrite Hpages, <- seq_shift, map_map.
        apply map_ext. intros i. lia. }
      split; [constructor; [reflexivity|assumption]|].
      split.
      { intros i e0 Hi Hlt. destruct i as [|i]; simpl in Hi.
        - injection Hi as <-. reflexivity.
        - apply (Hflags i e0 Hi). lia. }
      split.
      { destruct Hstop as [Hstop|(e0 & Hnth & Hflag)]; [left; lia|].
        right. exists e0. split; [|exact Hflag].
        destruct evs as [|e1 evs']; [destruct (List.length []); discriminate|].
        simpl in Hnth |- *. rewrite Nat.sub_0_r in *. exact Hnth. }
      rewrite Hp, <- app_assoc. reflexivity.
Qed.

Lemma collect_location_spec (df : frame) (location : pystr) (delay : Q)
  (max_pages_to_test : Z) (w : world) r w' :
  collect_location clean_text clean_container net df location delay
    max_pages_to_test w = (r, w') ->
  exists evs : list page_event,
    trace w' = trace w ++ evs
    /\ files w' = files w
    /\ (List.length evs <= Z.to_nat max_pages_to_test)%nat
    /\ map ev_page evs
       = map (fun i => (1 + Z.of_nat i)%Z) (seq 0 (List.length evs))
    /\ Forall (fun e => ev_location e = location) evs
    /\ (forall i e, nth_error evs i = Some e ->
                    (S i < List.length evs)%nat -> ev_end_of_data e = false)
    /\ match r with
       | Ok location_posts =>
           (List.length evs = Z.to_nat max_pages_to_test
            \/ exists e, nth_error evs (List.length evs - 1) = Some e
                         /\ ev_end_of_data e = true)
           /\ location_posts = List.concat (map ev_posts evs)
       | Raise _ => evs = []
       end.
Proof.
  unfold collect_location. intros Hrun.
  assert (Hnone : forall e, (Raise e, w) = (r, w') ->
            exists evs : list page_event,
              trace w' = trace w ++ evs /\ files w' = files w
              /\ (List.length evs <= Z.to_nat max_pages_to_test)%nat
              /\ map ev_page evs
                 = map (fun i => (1 + Z.of_nat i)%Z) (seq 0 (List.length evs))
              /\ Forall (fun e => ev_location e = location) evs
              /\ (forall i e, nth_error evs i = Some e ->
                    (S i < List.length evs)%nat -> ev_end_of_data e = false)
              /\ match r with
                 | Ok location_posts =>
                     (List.length evs = Z.to_nat max_pages_to_test
                      \/ exists e, nth_error evs (List.length evs - 1) = Some e
                                   /\ ev_end_of_data e = true)
                     /\ location_posts = List.concat (map ev_posts evs)
                 | Raise _ => evs = []
                 end).
  { intros e H. injection H as <- <-. exists []. rewrite app_nil_r.
    repeat split; auto; try (simpl; lia). }
  destruct (negb (has_column df "Page")); [eapply Hnone; eassumption|].
  destruct (sort_values _) as [|first_row others]; [eapply Hnone; eassumption|].
  destruct (API_URL first_row) as [base_url| |];
    try (eapply Hnone; eassumption).
  destruct (page_loop _ _ _ _ _ _ _ _ _ _ _ _ _) as [location_posts w1] eqn:Hloop.
  injection Hrun as <- <-.
  apply page_loop_spec in Hloop.
  destruct Hloop as (evs & Ht & Hf & Hlen & Hpages & Hloc & Hflags & Hstop & Hp).
  simpl in Hp. clear Hnone.
  exists evs. repeat (split; [assumption|]). assumption.
Qed.

(** The page of the [i]-th event of a location is [i + 1]. *)
Lemma page_of_event (evs : list page_event) (i : nat) (e : page_event) :
  map ev_page evs = map (fun i => (1 + Z.of_nat i)%Z) (seq 0 (List.length evs)) ->
  nth_error evs i = Some e -> ev_page e = (Z.of_nat i + 1)%Z.
Proof.
  intros Hpages Hi.
  assert (Hlt : (i < List.length evs)%nat)
    by (apply nth_error_Some; congruence).
  apply (map_nth_error ev_page) in Hi. rewrite Hpages in Hi.
  rewrite nth_error_map, nth_error_seq in Hi.
  apply Nat.ltb_lt in Hlt. rewrite Hlt in Hi. cbn [option_map] in Hi.
  assert (H : (1 + Z.of_nat (0 + i))%Z = ev_page e) by congruence.
  rewrite <- H. lia.
Qed.


(** ** The result of [collect_weibo_data_from_csv] *)

Lemma collected_since_app (w w' : world) (evs : list page_event) :
  trace w' = trace w ++ evs ->
  collected_since w w' = List.concat (map ev_posts evs).
Proof.
  intros H. unfold collected_since. rewrite H, skipn_app, skipn_all.
  now rewrite Nat.sub_diag.
Qed.

Lemma locations_loop_spec (df : frame) (delay : Q) (max_pages_to_test : Z)
  (locations : list pystr) :
  forall (all_weibo_data : list record) (location_stats : list (pystr * Z))
         (w : world) r w',
    locations_loop clean_text clean_container net locations df delay
      max_pages_to_test all_weibo_data location_stats w = (r, w') ->
    files w' = files w
    /\ exists evs : list page_event,
         trace w' = trace w ++ evs
         /\ match r with
            | Ok (all', _) =>
                all' = all_weibo_data ++ List.concat (map ev_posts evs)
            | Raise _ => True
            end.
Proof.
  induction locations as [|location rest IH];
    intros all_weibo_data location_stats w r w' Hrun; simpl in Hrun.
  - injection Hrun as <- <-. split; [reflexivity|]. exists [].
    now rewrite !app_nil_r.
  - destruct (collect_location clean_text clean_container net df location delay
                max_pages_to_test w) as [[location_posts|e] w1] eqn:Hloc.
    + apply collect_location_spec in Hloc.
      destruct Hloc as (evs & Ht & Hf & _ & _ & _ & _ & _ & Hp).
      apply IH in Hrun. destruct Hrun as (Hf' & evs' & Ht' & Hr).
      split; [congruence|]. exists (evs ++ evs').
      split; [rewrite Ht', Ht, app_assoc; reflexivity|].
      destruct r as [[all' ls]|]; [|exact I].
      rewrite Hr, Hp, map_app, concat_app, app_assoc. reflexivity.
    + apply collect_location_spec in Hloc.
      destruct Hloc as (evs & Ht & Hf & _ & _ & _ & _ & Hnil).
      injection Hrun as <- <-. split; [exact Hf|]. exists evs. now split.
Qed.

Lemma In_insert_by_page (r x : csv_row) (l : list csv_row) :
  In x (insert_by_page r l) <-> x = r \/ In x l.
Proof.
  induction l as [|y l IH]; simpl.
  - intuition congruence.
  - destruct (Page r <=? Page y)%Z; simpl; [intuition congruence|].
    rewrite IH. intuition congruence.
Qed.

Lemma In_sort_values (x : csv_row) (l : list csv_row) :
  In x (sort_values l) <-> In x l.
Proof.
  unfold sort_values. induction l as [|y l IH]; simpl; [tauto|].
  rewrite In_insert_by_page, IH. intuition congruence.
Qed.

Lemma In_unique_from (x : pystr) (l seen : list pystr) :
  In x (unique_from seen l) -> In x l.
Proof.
  revert seen. induction l as [|y l IH]; intros seen; simpl; [tauto|].
  destruct (existsb (PyStr.eqb y) seen); simpl.
  - intros H. right. eapply IH. exact H.
  - intros [->|H]; [now left|]. right. eapply IH. exact H.
Qed.

(** A location is processed without an exception when the frame has a
    [Page] column, some row has this location, and every [API_URL] cell is
    a string. *)
Lemma collect_location_ok (df : frame) (location : pystr) (delay : Q)
  (max_pages_to_test : Z) (w : world) :
  has_column df "Page" = true ->
  In location (map Location (rows df)) ->
  Forall (fun r => exists s, API_URL r = CellStr s) (rows df) ->
  exists location_posts,
    fst (collect_location clean_text clean_container net df location delay
           max_pages_to_test w) = Ok location_posts.
Proof.
  intros Hpage Hin Hurl. unfold collect_location. rewrite Hpage. simpl negb.
  cbv iota.
  apply in_map_iff in Hin. destruct Hin as (r & Hr & Hin).
  assert (Hin' : In r (sort_values
                         (filter (fun r => PyStr.eqb (Location r) location)
                                 (rows df)))).
  { apply In_sort_values, filter_In. split; [exact Hin|].
    rewrite Hr. apply eqb_refl. }
  destruct (sort_values _) as [|first_row others] eqn:Hsort; [destruct Hin'|].
  assert (Hfirst : In first_row (rows df)).
  { assert (H : In first_row (first_row :: others)) by now left.
    rewrite <- Hsort in H. apply In_sort_values, filter_In in H. tauto. }
  rewrite Forall_forall in Hurl. destruct (Hurl _ Hfirst) as (s & ->).
  destruct (page_loop _ _ _ _ _ _ _ _ _ _ _ _ _) as [location_posts w1].
  now exists location_posts.
Qed.

Lemma locations_loop_ok (df : frame) (delay : Q) (max_pages_to_test : Z)
  (locations : list pystr) :
  has_column df "Page" = true ->
  (forall location, In location locations ->
                    In location (map Location (rows df))) ->
  Forall (fun r => exists s, API_URL r = CellStr s) (rows df) ->
  forall (all_weibo_data : list record) (location_stats : list (pystr * Z))
         (w : world),
  exists result,
    fst (locations_loop clean_text clean_container net locations df delay
           max_pages_to_test all_weibo_data location_stats w) = Ok result.
Proof.
  intros Hpage Hin Hurl.
  induction locations as [|location rest IH];
    intros all_weibo_data location_stats w; simpl.
  - eexists. reflexivity.
  - destruct (collect_location_ok df location delay max_pages_to_test w Hpage
                (Hin location (or_introl eq_refl)) Hurl)
      as (location_posts & Hok).
    destruct (collect_location clean_text clean_container net df location delay
                max_pages_to_test w) as [[posts|e] w1]; [|discriminate].
    apply IH. intros l Hl. apply Hin. now right.
Qed.

Lemma collected_since_same (w : world) : collected_since w w = [].
Proof. unfold collected_since. now rewrite skipn_all. Qed.

(** The ways a run of [collect_weibo_data_from_csv] can go. *)
Lemma collect_cases (cookies : pystr) (csv : Res frame)
  (output_dir output_file : pystr) (delay : Q) (max_pages_to_test : Z)
  (to_csv save_statistics : Res unit) (w : world) b w' :
  collect_weibo_data_from_csv clean_text clean_container net os_path_join
    cookies csv output_dir output_file delay max_pages_to_test to_csv
    save_statistics w = (b, w') ->
  (b = false /\ w' = w
   /\ (cookies = [] \/ (exists e, csv = Raise e)
       \/ exists df, csv = Ok df
                     /\ (has_column df "API_URL" = false
                         \/ has_column df "Location" = false)))
  \/ (cookies <> []
      /\ exists df evs r w1,
           csv = Ok df
           /\ has_column df "API_URL" = true
           /\ has_column df "Location" = true
           /\ locations_loop clean_text clean_container net
                (unique (map Location (rows df))) df delay max_pages_to_test
                [] [] w = (r, w1)
           /\ trace w1 = trace w ++ evs
           /\ files w1 = files w
           /\ match r with
              | Raise _ => b = false /\ w' = w1
              | Ok (all_weibo_data, location_stats) =>
                  all_weibo_data = List.concat (map ev_posts evs)
                  /\ match all_weibo_data, to_csv, save_statistics with
                     | [], _, _ => b = false /\ w' = w1
                     | _ :: _, Raise _, _ => b = false /\ w' = w1
                     | _ :: _, Ok _, Raise _ =>
                         b = false
                         /\ w' = write_file (os_path_join output_dir output_file)
                                   (DataCsv all_weibo_data) w1
                     | _ :: _, Ok _, Ok _ =>
                         b = true
                         /\ w' = write_file
                                   (stats_file_of
                                      (os_path_join output_dir output_file))
                                   (StatsTxt (stats w1) location_stats)
                                   (write_file
                                      (os_path_join output_dir output_file)
                                      (DataCsv all_weibo_data) w1)
                     end
              end).
Proof.
  unfold collect_weibo_data_from_csv, collect_body. intros Hrun.
  destruct cookies as [|c cookies].
  { injection Hrun as <- <-. left. auto. }
  destruct csv as [df|e].
  2:{ injection Hrun as <- <-. left. repeat split. right. left. now exists e. }
  destruct (has_column df "API_URL") eqn:Hapi; simpl negb in Hrun; cbv iota in Hrun.
  2:{ injection Hrun as <- <-. left. repeat split. right. right. exists df. auto. }
  destruct (has_column df "Location") eqn:Hloc; simpl negb in Hrun; cbv iota in Hrun.
  2:{ injection Hrun as <- <-. left. repeat split. right. right. exists df. auto. }
  right. split; [discriminate|].
  destruct (locations_loop clean_text clean_container net
              (unique (map Location (rows df))) df delay max_pages_to_test
              [] [] w) as [r w1] eqn:Hloop.
  destruct (locations_loop_spec _ _ _ _ _ _ _ Hloop) as (Hf & evs & Ht & Hr).
  exists df, evs, r, w1.
  repeat (split; [first [reflexivity | assumption]|]).
  destruct r as [[all_weibo_data location_stats]|e].
  - simpl in Hr. split; [exact Hr|].
    destruct all_weibo_data as [|p all_weibo_data].
    + injection Hrun as <- <-. now split.
    + destruct to_csv as [u|e]; [|injection Hrun as <- <-; now split].
      destruct save_statistics as [u'|e]; injection Hrun as <- <-; now split.
  - injection Hrun as <- <-. now split.
Qed.


End CollectFacts.




(** ** The API URL of a page *)

Section UrlFacts.

Variable is_digit : pychar -> bool.

Lemma replace_from_skip (old new : pystr) (s : pystr) :
  forall k, replace_from old new k s = replace_from old new 0 (skipn k s).
Proof.
  induction s as [|c s IH]; intros k.
  - now destruct k.
  - destruct k as [|k]; [reflexivity|]. simpl skipn.
    change (replace_from old new (S k) (c :: s)) with (replace_from old new k s).
    apply IH.
Qed.

Lemma skipn_length_app {A} (l r : list A) : skipn (List.length l) (l ++ r) = r.
Proof. induction l as [|x l IH]; simpl; [reflexivity|exact IH]. Qed.

(** [replace] cuts the string as [Replaced] says. *)
Lemma replace_Replaced (old new : pystr) :
  old <> [] -> forall s, Replaced old new s (replace old new s).
Proof.
  intros Hold s. unfold replace.
  remember (List.length s) as n eqn:Hn.
  revert s Hn. induction n as [n IH] using lt_wf_ind. intros s Hn.
  destruct s as [|c s]; [constructor|].
  cbn [replace_from].
  destruct (starts_with old (c :: s)) eqn:Hstart.
  - destruct (starts_with_inv _ _ Hstart) as [r Hr].
    destruct old as [|o old']; [contradiction|].
    simpl in Hr. injection Hr as -> ->.
    rewrite replace_from_skip. simpl List.length.
    replace (S (List.length old') - 1)%nat with (List.length old') by lia.
    rewrite skipn_length_app.
    change (o :: old' ++ r) with ((o :: old') ++ r). apply Replaced_hit.
    apply (IH (List.length r)); [|reflexivity].
    subst n. simpl. rewrite length_app. lia.
  - apply Replaced_keep; [exact Hstart|].
    apply (IH (List.length s)); [|reflexivity]. subst n. simpl. lia.
Qed.

(** [Replaced] determines its result. *)
Lemma Replaced_functional (old new : pystr) :
  old <> [] ->
  forall s r1, Replaced old new s r1 ->
  forall r2, Replaced old new s r2 -> r1 = r2.
Proof.
  intros Hold s r1 H1. induction H1 as [|s r1 H1 IH|c s r1 Hc H1 IH]; intros r2 H2.
  - inversion H2 as [|s' r' H' Hs|]; [reflexivity|].
    destruct old; [contradiction|discriminate].
  - remember (old ++ s) as t eqn:Ht.
    destruct H2 as [|s' r' H'|c s' r' Hc' H'].
    + destruct old; [contradiction|discriminate].
    + apply app_inv_head in Ht. subst s'. f_equal. now apply IH.
    + rewrite Ht, starts_with_app in Hc'. discriminate.
  - remember (c :: s) as t eqn:Ht.
    destruct H2 as [|s' r' H'|c' s' r' Hc' H'].
    + discriminate.
    + rewrite Ht in Hc. rewrite <- Ht, starts_with_app in Hc. discriminate.
    + injection Ht as -> ->. f_equal. now apply IH.
Qed.

Lemma sub_page_from_skip (repl : pystr) (s : pystr) :
  forall k, sub_page_from is_digit repl k s
            = sub_page_from is_digit repl 0 (skipn k s).
Proof.
  induction s as [|c s IH]; intros k.
  - now destruct k.
  - destruct k as [|k]; [reflexivity|]. simpl skipn.
    change (sub_page_from is_digit repl (S k) (c :: s))
      with (sub_page_from is_digit repl k s).
    apply IH.
Qed.

(** The run of digits at the start of a string, and what follows it. *)
Lemma digits_prefix_spec (s : pystr) :
  forallb is_digit (firstn (digits_prefix is_digit s) s) = true
  /\ match skipn (digits_prefix is_digit s) s with
     | c :: _ => is_digit c = false
     | [] => True
     end.
Proof.
  induction s as [|c s IH]; simpl; [auto|].
  destruct (is_digit c) eqn:Hc; simpl; [rewrite Hc|]; tauto.
Qed.

Lemma digits_split_unique (ds1 ds2 s1 s2 : pystr) :
  forallb is_digit ds1 = true -> forallb is_digit ds2 = true ->
  match s1 with c :: _ => is_digit c = false | [] => True end ->
  match s2 with c :: _ => is_digit c = false | [] => True end ->
  ds1 ++ s1 = ds2 ++ s2 -> ds1 = ds2 /\ s1 = s2.
Proof.
  revert ds2. induction ds1 as [|d ds1 IH]; intros [|d' ds2] H1 H2 N1 N2 E;
    simpl in *.
  - auto.
  - subst s1. apply andb_true_iff in H2. destruct H2. congruence.
  - subst s2. apply andb_true_iff in H1. destruct H1. congruence.
  - injection E as -> E. apply andb_true_iff in H1, H2.
    destruct (IH ds2) as [-> ->]; tauto.
Qed.

Lemma digits_prefix_zero (s : pystr) :
  digits_prefix is_digit s = O ->
  match s with c :: _ => is_digit c = false | [] => True end.
Proof.
  destruct s as [|c s]; simpl; [auto|].
  destruct (is_digit c); [discriminate|reflexivity].
Qed.

Lemma digits_prefix_succ (s : pystr) (k : nat) :
  digits_prefix is_digit s = S k ->
  exists d ds, firstn (S k) s = d :: ds.
Proof.
  destruct s as [|c s]; simpl; [discriminate|]. intros _. eauto.
Qed.

Lemma page_prefix_length : List.length (lit "&page=") = 6%nat.
Proof. reflexivity. Qed.

(** [re.sub] rewrites the string as [PageRewritten] says. *)
Lemma re_sub_page_PageRewritten (repl : pystr) (s : pystr) :
  PageRewritten is_digit repl s (re_sub_page is_digit repl s).
Proof.
  unfold re_sub_page.
  remember (List.length s) as n eqn:Hn.
  revert s Hn. induction n as [n IH] using lt_wf_ind. intros s Hn.
  destruct s as [|c s]; [constructor|].
  cbn [sub_page_from].
  destruct (page_match is_digit (c :: s)) as [m|] eqn:Hm.
  - unfold page_match in Hm.
    destruct (starts_with (lit "&page=") (c :: s)) eqn:Hstart; [|discriminate].
    destruct (starts_with_inv _ _ Hstart) as [rest Hrest].
    rewrite Hrest, <- page_prefix_length, skipn_length_app in Hm.
    destruct (digits_prefix is_digit rest) as [|k] eqn:Hk; [discriminate|].
    injection Hm as <-.
    destruct (digits_prefix_spec rest) as [Hdigits Hnext]. rewrite Hk in *.
    destruct (digits_prefix_succ rest Hk) as (d & ds & Hfirst).
    rewrite Hfirst in Hdigits.
    rewrite sub_page_from_skip.
    assert (Hskip : skipn (6 + S k - 1) s = skipn (S k) rest).
    { change (skipn (6 + S k - 1) s) with (skipn (6 + S k) (c :: s)).
      rewrite Hrest, skipn_app, page_prefix_length.
      replace (6 + S k - 6)%nat with (S k) by lia.
      rewrite (skipn_all2 (lit "&page=")) by (rewrite page_prefix_length; lia).
      reflexivity. }
    change (S (S (S (S (S (S (S k)))))) - 1)%nat with (6 + S k - 1)%nat.
    rewrite Hskip.
    assert (Hcut : c :: s = lit "&page=" ++ (d :: ds) ++ skipn (S k) rest).
    { rewrite Hrest, <- Hfirst, firstn_skipn. reflexivity. }
    rewrite Hcut. apply PageRewritten_hit; [exact Hdigits|exact Hnext|].
    apply (IH (List.length (skipn (S k) rest))); try reflexivity.
    subst n. rewrite Hcut, length_app, length_app. simpl. lia.
  - apply PageRewritten_keep.
    + unfold page_match in Hm.
      destruct (starts_with (lit "&page=") (c :: s)); [|now left]. right.
      destruct (digits_prefix is_digit (skipn 6 (c :: s))) eqn:Hd; [|discriminate].
      now apply digits_prefix_zero.
    + apply (IH (List.length s)); [|reflexivity]. subst n. simpl. lia.
Qed.

(** [PageRewritten] determines its result. *)
Lemma PageRewritten_functional (repl : pystr) :
  forall s r1, PageRewritten is_digit repl s r1 ->
  forall r2, PageRewritten is_digit repl s r2 -> r1 = r2.
Proof.
  intros s r1 H1.
  induction H1 as [|d ds s r1 Hd Hn H1 IH|c s r1 Hc H1 IH]; intros r2 H2.
  - inversion H2; try reflexivity; discriminate.
  - remember (lit "&page=" ++ (d :: ds) ++ s) as t eqn:Ht.
    destruct H2 as [|d' ds' s' r' Hd' Hn' H'|c s' r' Hc' H'].
    + discriminate.
    + apply app_inv_head in Ht.
      destruct (digits_split_unique (d' :: ds') (d :: ds) s' s Hd' Hd Hn' Hn Ht)
        as [_ ->].
      f_equal. now apply IH.
    + exfalso. rewrite Ht in Hc'. destruct Hc' as [Hc'|Hc'].
      * rewrite starts_with_app in Hc'. discriminate.
      * rewrite <- page_prefix_length, skipn_length_app in Hc'.
        simpl in Hc', Hd. rewrite Hc' in Hd. discriminate.
  - remember (c :: s) as t eqn:Ht.
    destruct H2 as [|d' ds' s' r' Hd' Hn' H'|c' s' r' Hc' H'].
    + discriminate.
    + exfalso. rewrite Ht in Hc. rewrite <- Ht in Hc. clear Ht.
      destruct Hc as [Hc|Hc].
      * rewrite starts_with_app in Hc. discriminate.
      * rewrite <- page_prefix_length, skipn_length_app in Hc.
        simpl in Hc, Hd'. rewrite Hc in Hd'. discriminate.
    + injection Ht as -> ->. f_equal. now apply IH.
Qed.

(** C6. The result is the input with every [/p/cardlist] replaced by
    [/api/container/getIndex] and the page set to [p]: when that
    intermediate string contains [&page=], every [&page=] followed by
    digits is rewritten to [&page=p]; otherwise [&page=p] is appended. *)
Theorem convert_cardlist_to_api_url_spec (cardlist_url : pystr) (page : Z) :
  exists api_url : pystr,
    Replaced (lit "/p/cardlist") (lit "/api/container/getIndex")
      cardlist_url api_url
    /\ (forall other,
          Replaced (lit "/p/cardlist") (lit "/api/container/getIndex")
            cardlist_url other -> other = api_url)
    /\ (contains (lit "&page=") api_url = true ->
        PageRewritten is_digit (lit "&page=" ++ of_int page) api_url
          (convert_cardlist_to_api_url is_digit cardlist_url page)
        /\ forall other,
             PageRewritten is_digit (lit "&page=" ++ of_int page) api_url other ->
             other = convert_cardlist_to_api_url is_digit cardlist_url page)
    /\ (contains (lit "&page=") api_url = false ->
        convert_cardlist_to_api_url is_digit cardlist_url page
        = api_url ++ lit "&page=" ++ of_int page).
Proof.
  assert (Hold : lit "/p/cardlist" <> []) by discriminate.
  exists (replace (lit "/p/cardlist") (lit "/api/container/getIndex") cardlist_url).
  split; [now apply replace_Replaced|].
  split.
  { intros other H. symmetry.
    eapply Replaced_functional; [exact Hold| |exact H].
    now apply replace_Replaced. }
  unfold convert_cardlist_to_api_url.
  split; intros Hc; rewrite Hc.
  - split; [apply re_sub_page_PageRewritten|].
    intros other H. symmetry.
    eapply PageRewritten_functional; [|exact H].
    apply re_sub_page_PageRewritten.
  - reflexivity.
Qed.

End UrlFacts.

Lemma convert_cardlist_to_api_url_spec_witness :
  let url := lit "https://m.weibo.cn/p/cardlist?containerid=1&page=12&x=1" in
  let api_url := lit "https://m.weibo.cn/api/container/getIndex?containerid=1&page=12&x=1" in
  contains (lit "&page=") api_url = true
  /\ PageRewritten Samples.ascii_digit (lit "&page=3") api_url
       (convert_cardlist_to_api_url Samples.ascii_digit url 3)
  /\ convert_cardlist_to_api_url Samples.ascii_digit url 3
     = lit "https://m.weibo.cn/api/container/getIndex?containerid=1&page=3&x=1"
  /\ convert_cardlist_to_api_url Samples.ascii_digit
       (lit "https://m.weibo.cn/p/cardlist?containerid=1") 3
     = lit "https://m.weibo.cn/api/container/getIndex?containerid=1&page=3".
Proof.
  intros url api_url.
  destruct (convert_cardlist_to_api_url_spec Samples.ascii_digit url 3)
    as (mid & Hrep & Hunique & Hpage & _).
  assert (Hmid : api_url = mid).
  { apply Hunique. apply (replace_Replaced (old := lit "/p/cardlist")); discriminate. }
  subst mid.
  destruct (Hpage eq_refl) as [Hrewritten _].
  split; [reflexivity|]. split; [exact Hrewritten|]. split; [reflexivity|].
  destruct (convert_cardlist_to_api_url_spec Samples.ascii_digit
              (lit "https://m.weibo.cn/p/cardlist?containerid=1") 3)
    as (mid & Hrep' & Hunique' & _ & Happend).
  assert (Hmid : lit "https://m.weibo.cn/api/container/getIndex?containerid=1" = mid).
  { apply Hunique'. apply (replace_Replaced (old := lit "/p/cardlist")); discriminate. }
  subst mid. rewrite (Happend eq_refl). reflexivity.
Defined.

(** ** Duplicate coordinates *)

Section AmapFacts.

Variable float : Type.
Variable strip : pystr -> pystr.
Variable to_float : pystr -> option float.
Variable round2 : float -> float.
Variable fmt2 : float -> pystr.

Local Abbreviation get_coordinates :=
  (Amap.get_coordinates strip to_float round2 fmt2).
Local Abbreviation rounded_pair := (Amap.rounded_pair strip to_float round2).
Local Abbreviation coord_key := (Amap.coord_key fmt2).
Local Abbreviation collect_rows := (Amap.collect_rows strip to_float round2 fmt2).

Lemma lookup_store_same (m : Amap.coord_map) (k v : pystr) :
  Amap.lookup (Amap.store m k v) k = Some v.
Proof.
  induction m as [|[k' v'] m IH]; simpl.
  - now rewrite eqb_refl.
  - destruct (PyStr.eqb k' k) eqn:E; simpl; rewrite E; [reflexivity|exact IH].
Qed.

Lemma lookup_store_other (m : Amap.coord_map) (k v k' : pystr) :
  k' <> k -> Amap.lookup (Amap.store m k v) k' = Amap.lookup m k'.
Proof.
  intros Hne. induction m as [|[k0 v0] m IH]; simpl.
  - destruct (PyStr.eqb k k') eqn:E; [|reflexivity].
    apply eqb_eq in E. congruence.
  - destruct (PyStr.eqb k0 k) eqn:E; simpl.
    + apply eqb_eq in E. subst k0.
      destruct (PyStr.eqb k k') eqn:E'; [|reflexivity].
      apply eqb_eq in E'. congruence.
    + destruct (PyStr.eqb k0 k'); [reflexivity|exact IH].
Qed.

(** Storing under a key that is not there keeps every entry. *)
Lemma lookup_store_keeps (m : Amap.coord_map) (k v k' v' : pystr) :
  Amap.lookup m k = None -> Amap.lookup m k' = Some v' ->
  Amap.lookup (Amap.store m k v) k' = Some v'.
Proof.
  intros Hk Hk'. rewrite lookup_store_other; [exact Hk'|]. congruence.
Qed.

(** [get_coordinates] in terms of the pair the picker value parses to. *)
Lemma get_coordinates_cases (location_name : pystr) (p : Amap.picker)
  (m : Amap.coord_map) :
  get_coordinates location_name p m
  = match rounded_pair p with
    | None => (None, m)
    | Some (lat, lng) =>
        match Amap.lookup m (coord_key lng lat) with
        | Some _ => (None, m)
        | None => (Some (lat, lng), Amap.store m (coord_key lng lat) location_name)
        end
    end.
Proof.
  unfold Amap.get_coordinates, Amap.rounded_pair.
  destruct p as [|e|[coordinates|]]; try reflexivity.
  destruct (_ && _); [|reflexivity].
  destruct (Amap.split_comma [] (strip coordinates)) as [|c0 [|c1 rest]];
    try reflexivity.
  destruct (to_float (strip c0)); [|reflexivity].
  destruct (to_float (strip c1)); reflexivity.
Qed.

(** A call never changes an entry of the map. *)
Lemma get_coordinates_keeps (location_name : pystr) (p : Amap.picker)
  (m : Amap.coord_map) r m' (k first : pystr) :
  get_coordinates location_name p m = (r, m') ->
  Amap.lookup m k = Some first -> Amap.lookup m' k = Some first.
Proof.
  rewrite get_coordinates_cases. intros Hrun Hk.
  destruct (rounded_pair p) as [[lat lng]|]; [|injection Hrun as <- <-; exact Hk].
  destruct (Amap.lookup m (coord_key lng lat)) eqn:Hkey;
    injection Hrun as <- <-; [exact Hk|].
  now apply lookup_store_keeps.
Qed.

(** The rows that a run adds to [results]: their keys are pairwise
    distinct, none was in the map before, and each is in the map afterwards
    under the location of its row. *)
Lemma collect_rows_spec (locations : list (pystr * Amap.picker)) :
  forall (results : list Amap.result_row) (m : Amap.coord_map) results' m',
    collect_rows locations results m = (Ok results', m') ->
    exists added,
      results' = results ++ added
      /\ NoDup (map Amap.Coordinates added)
      /\ (forall row, In row added ->
            Amap.lookup m (Amap.Coordinates row) = None
            /\ Amap.lookup m' (Amap.Coordinates row) = Some (Amap.Location row))
      /\ (forall k v, Amap.lookup m k = Some v -> Amap.lookup m' k = Some v).
Proof.
  induction locations as [|[raw_location p] rest IH];
    intros results m results' m' Hrun; simpl in Hrun.
  - injection Hrun as <- <-. exists []. rewrite app_nil_r.
    split; [reflexivity|]. split; [constructor|].
    split; [intros row []|auto].
  - rewrite get_coordinates_cases in Hrun.
    destruct (rounded_pair p) as [[lat lng]|]; [|discriminate].
    destruct (Amap.lookup m (coord_key lng lat)) eqn:Hkey; [discriminate|].
    apply IH in Hrun.
    destruct Hrun as (added & Hres & Hnodup & Hrows & Hkeeps).
    set (row := {| Amap.Location := strip raw_location;
                   Amap.Latitude := fmt2 lat;
                   Amap.Longitude := fmt2 lng;
                   Amap.Coordinates := fmt2 lng ++ [Amap.comma] ++ fmt2 lat |})
      in *.
    assert (Hrow : Amap.lookup m' (coord_key lng lat) = Some (strip raw_location)).
    { apply Hkeeps. apply lookup_store_same. }
    exists (row :: added).
    split; [rewrite Hres, <- app_assoc; reflexivity|].
    split.
    { simpl. constructor; [|exact Hnodup].
      intros Hin. apply in_map_iff in Hin. destruct Hin as (row' & Hk' & Hin).
      destruct (Hrows row' Hin) as [Hnone _].
      change (Amap.Coordinates row) with (coord_key lng lat) in Hk'.
      rewrite Hk', lookup_store_same in Hnone. discriminate. }
    split.
    { intros row' [<-|Hin]; [split; [exact Hkey|exact Hrow]|].
      destruct (Hrows row' Hin) as [Hnone Hsome]. split; [|exact Hsome].
      destruct (Amap.lookup m (Amap.Coordinates row')) as [v|] eqn:Hm;
        [|reflexivity].
      rewrite lookup_store_keeps with (v' := v) in Hnone by assumption.
      discriminate. }
    intros k v Hk. apply Hkeeps. now apply lookup_store_keeps.
Qed.

(** C7. [get_coordinates] returns [(None, None)] and leaves the map alone
    when the rounded key is already in [collected_coordinates]; otherwise
    it returns the rounded pair and records the key under the location
    name, and no later call changes that entry.  So the rows that one run
    writes have pairwise distinct coordinate strings, none of them known to
    the map before the run.  The map of a new collector is empty, so there
    a key is never a duplicate: nothing is remembered from another run. *)
Theorem get_coordinates_deduplicates :
  (forall location_name p m lat lng first,
     rounded_pair p = Some (lat, lng) ->
     Amap.lookup m (coord_key lng lat) = Some first ->
     get_coordinates location_name p m = (None, m))
  /\ (forall location_name p m lat lng,
        rounded_pair p = Some (lat, lng) ->
        Amap.lookup m (coord_key lng lat) = None ->
        get_coordinates location_name p m
        = (Some (lat, lng), Amap.store m (coord_key lng lat) location_name)
        /\ Amap.lookup (Amap.store m (coord_key lng lat) location_name)
             (coord_key lng lat) = Some location_name)
  /\ (forall location_name p m r m' k first,
        get_coordinates location_name p m = (r, m') ->
        Amap.lookup m k = Some first -> Amap.lookup m' k = Some first)
  /\ (forall locations m b results m',
        Amap.collect_coordinates_from_csv strip to_float round2 fmt2 locations m
        = (b, Some results, m') ->
        NoDup (map Amap.Coordinates results)
        /\ forall row, In row results ->
             Amap.lookup m (Amap.Coordinates row) = None
             /\ Amap.lookup m' (Amap.Coordinates row) = Some (Amap.Location row))
  /\ (forall location_name p lat lng,
        rounded_pair p = Some (lat, lng) ->
        get_coordinates location_name p Amap.init_collected
        = (Some (lat, lng), [(coord_key lng lat, location_name)])).
Proof.
  split.
  { intros location_name p m lat lng first Hp Hk.
    rewrite get_coordinates_cases, Hp, Hk. reflexivity. }
  split.
  { intros location_name p m lat lng Hp Hk.
    rewrite get_coordinates_cases, Hp, Hk. split; [reflexivity|].
    apply lookup_store_same. }
  split.
  { intros location_name p m r m' k first. apply get_coordinates_keeps. }
  split.
  { intros locations m b results m' Hrun.
    unfold Amap.collect_coordinates_from_csv in Hrun.
    destruct (collect_rows locations [] m) as [[rs|e] m1] eqn:Hrows;
      [|discriminate].
    injection Hrun as _ <- <-.
    apply collect_rows_spec in Hrows.
    destruct Hrows as (added & -> & Hnodup & Hin & _). simpl.
    split; assumption. }
  intros location_name p lat lng Hp.
  rewrite get_coordinates_cases, Hp. reflexivity.
Qed.

End AmapFacts.

Lemma get_coordinates_deduplicates_witness :
  let get := Amap.get_coordinates Samples.same_text Samples.length_as_float
               Samples.same_number of_int in
  let picked := Amap.CoordinateValue (Some (lit "116.31,39.99")) in
  let seen := [(lit "6,5", lit "PKU")] in
  Amap.rounded_pair Samples.same_text Samples.length_as_float
    Samples.same_number picked = Some (5%Z, 6%Z)
  /\ Amap.lookup seen (lit "6,5") = Some (lit "PKU")
  /\ get (lit "THU") picked seen = (None, seen)
  /\ get (lit "PKU") picked Amap.init_collected = (Some (5%Z, 6%Z), seen)
  /\ NoDup (map (@Amap.Coordinates)
              [ {| Amap.Location := lit "PKU"; Amap.Latitude := lit "5";
                   Amap.Longitude := lit "6"; Amap.Coordinates := lit "6,5" |};
                {| Amap.Location := lit "THU"; Amap.Latitude := lit "5";
                   Amap.Longitude := lit "7"; Amap.Coordinates := lit "7,5" |} ]).
Proof.
  intros get picked seen.
  destruct (get_coordinates_deduplicates Samples.same_text
              Samples.length_as_float Samples.same_number of_int)
    as (Hdup & _ & _ & Hrun & Hfresh).
  split; [reflexivity|]. split; [reflexivity|].
  split.
  { apply (Hdup (lit "THU") picked seen 5%Z 6%Z (lit "PKU")); reflexivity. }
  split.
  { apply (Hfresh (lit "PKU") picked 5%Z 6%Z). reflexivity. }
  apply (Hrun [(lit "PKU", picked);
               (lit "THU", Amap.CoordinateValue (Some (lit "116.315,39.99")))]
              Amap.init_collected true _
              [(lit "6,5", lit "PKU"); (lit "7,5", lit "THU")]).
  reflexivity.
Defined.

(** * Further properties of the collector *)

(** ** The records of [extract_mblog_info] *)

Section MblogFacts.

Variable clean_text : pystr -> pystr.
Variable clean_container : json -> Res pystr.

Local Abbreviation mblog_info :=
  (extract_mblog_info clean_text clean_container).

Lemma strs_of_joinable (pics : list json) :
  forallb (fun pic =>
             match pic with
             | JDict p =>
                 let pic_url := get_or p "url" (JStr []) in
                 negb (truthy pic_url)
                 || match pic_url with JStr _ => true | _ => false end
             | _ => true
             end) pics = true
  <-> exists urls, strs_of (pic_url_values pics) = Ok urls.
Proof.
  induction pics as [|pic pics IH]; simpl.
  - split; [eexists; reflexivity|reflexivity].
  - destruct pic as [| | | | | |p]; try exact IH.
    rewrite andb_true_iff, IH. clear IH.
    destruct (get_or p "url" (JStr [])) as [|b|z|f|u|l|d] eqn:Hurl; simpl.
    + split; [tauto|]. intros H. split; [reflexivity|exact H].
    + destruct b; simpl.
      * split; [intros [H _]; discriminate|intros [urls H]; discriminate].
      * split; [tauto|]. intros H. split; [reflexivity|exact H].
    + destruct (z =? 0)%Z; simpl.
      * split; [tauto|]. intros H. split; [reflexivity|exact H].
      * split; [intros [H _]; discriminate|intros [urls H]; discriminate].
    + destruct f as [| |q]; simpl;
        try (split; [intros [H _]; discriminate|intros [urls H]; discriminate]).
      destruct (Qeq_bool q 0); simpl.
      * split; [tauto|]. intros H. split; [reflexivity|exact H].
      * split; [intros [H _]; discriminate|intros [urls H]; discriminate].
    + destruct u as [|c u]; simpl.
      * split; [tauto|]. intros H. split; [reflexivity|exact H].
      * split.
        -- intros [_ [urls H]]. rewrite H. eexists. reflexivity.
        -- intros [urls H]. split; [reflexivity|].
           destruct (strs_of (pic_url_values pics)); [eexists; reflexivity|discriminate].
    + destruct l; simpl.
      * split; [tauto|]. intros H. split; [reflexivity|exact H].
      * split; [intros [H _]; discriminate|intros [urls H]; discriminate].
    + destruct d; simpl.
      * split; [tauto|]. intros H. split; [reflexivity|exact H].
      * split; [intros [H _]; discriminate|intros [urls H]; discriminate].
Qed.

Lemma pic_urls_of_joinable (m : list (pystr * json)) :
  pic_urls_joinable m = true <-> exists v, pic_urls_of m = Ok v.
Proof.
  unfold pic_urls_joinable, pic_urls_of.
  destruct (get_or m "pics" (JList [])) as [| | | | |pics|];
    try (split; [eexists; reflexivity|reflexivity]).
  destruct pics as [|pic pics]; [split; [eexists; reflexivity|reflexivity]|].
  rewrite strs_of_joinable.
  destruct (strs_of (pic_url_values (pic :: pics))) as [urls|e].
  - split; eexists; reflexivity.
  - split; intros [v H]; discriminate.
Qed.

Lemma pic_urls_of_raises (m : list (pystr * json)) (e : exn) :
  pic_urls_of m = Raise e -> e = TypeError.
Proof.
  unfold pic_urls_of.
  destruct (get_or m "pics" (JList [])) as [| | | | |pics|]; try discriminate.
  destruct pics as [|pic pics]; [discriminate|].
  generalize (pic_url_values (pic :: pics)). intros vs.
  assert (H : forall e', strs_of vs = Raise e' -> e' = TypeError).
  { induction vs as [|v vs IH]; simpl; [discriminate|].
    destruct v; try (intros e' H; congruence).
    destruct (strs_of vs); [discriminate|].
    intros e' H. injection H as <-. now apply IH. }
  destruct (strs_of vs) as [urls|e'] eqn:Hs; [discriminate|].
  intros Hr. injection Hr as <-. now apply H.
Qed.

Lemma extract_mblog_info_record (m : list (pystr * json)) (coordinates : json)
  (r : record) :
  mblog_info (JDict m) coordinates = Ok r ->
  map fst r = mblog_columns
  /\ dict_get r (lit "coordinates") = Some coordinates
  /\ exists text,
       dict_get r (lit "text") = Some (JStr text)
       /\ dict_get r (lit "text_length")
          = Some (JInt (Z.of_nat (List.length text))).
Proof.
  unfold extract_mblog_info.
  destruct (cleaned_text clean_text clean_container m) as [raw_text|e];
    [|discriminate].
  destruct (pic_urls_of m) as [pic_urls|e]; [|discriminate].
  intros H. injection H as <-.
  split; [reflexivity|]. split; [reflexivity|].
  exists raw_text. split; reflexivity.
Qed.



End MblogFacts.

(** ** The posts and the counters of [fetch_weibo_data_from_api] *)

Section FetchMore.

Variable clean_text : pystr -> pystr.
Variable clean_container : json -> Res pystr.
Variable net : nat -> cell -> attempt_outcome.
Variable location : pystr.
Variable coordinates : json.

Local Arguments extract_mblog_info : simpl never.
Local Arguments Z.sub : simpl never.
Local Arguments Z.add : simpl never.
Local Arguments Z.ltb : simpl never.

Local Abbreviation attempt_at w api_url i :=
  (run_attempt clean_text clean_container
     (net (List.length (gets w) + i) api_url) location coordinates).

Local Abbreviation fetch :=
  (fun api_url page retry_count delay w =>
     fetch_weibo_data_from_api clean_text clean_container net api_url location
       page coordinates retry_count delay w).

Lemma dict_get_none_keys (d : record) (k : pystr) :
  existsb (fun k' => PyStr.eqb k' k) (map fst d) = false -> dict_get d k = None.
Proof.
  induction d as [|[k' v] d IH]; simpl; [reflexivity|].
  destruct (PyStr.eqb k' k); simpl; [discriminate|exact IH].
Qed.

Lemma dict_set_fresh (d : record) (k : pystr) (v : json) :
  dict_get d k = None ->
  dict_set d k v = d ++ [(k, v)] /\ dict_get (d ++ [(k, v)]) k = Some v.
Proof.
  induction d as [|[k' v'] d IH]; simpl.
  - intros _. now rewrite eqb_refl.
  - destruct (PyStr.eqb k' k); [discriminate|]. intros H.
    destruct (IH H) as [-> ->]. now split.
Qed.

Lemma set_location_columns (r : record) :
  map fst r = mblog_columns ->
  post_of_location location (dict_set r (lit "location") (JStr location)).
Proof.
  intros Hcols.
  assert (Hnone : dict_get r (lit "location") = None).
  { apply dict_get_none_keys. rewrite Hcols. reflexivity. }
  destruct (@dict_set_fresh r (lit "location") (JStr location) Hnone)
    as [-> Hget].
  split; [|exact Hget].
  rewrite map_app, Hcols. reflexivity.
Qed.

Lemma qualifying_are_dicts (cards : list json) (mblog : json) :
  In mblog (qualifying_mblogs cards) -> exists m, mblog = JDict m.
Proof.
  assert (Hpost : forall item x, In x (post_mblog item) -> exists m, x = JDict m).
  { intros item x. unfold post_mblog.
    destruct item as [| | | | | |c]; try (intros []; fail).
    destruct (eq_int (get c "card_type") 9); [|intros []].
    destruct (get_or c "mblog" (JDict [])) as [| | | | | |[|kv d]];
      try (intros []; fail).
    intros [<-|[]]. eauto. }
  unfold qualifying_mblogs. intros H. apply in_flat_map in H.
  destruct H as (card & _ & H). apply in_app_or in H.
  destruct H as [H|H]; [eapply Hpost; exact H|].
  apply in_flat_map in H. destruct H as (item & _ & H). eapply Hpost; exact H.
Qed.

Lemma ok_prefix_Forall {A} (f : A -> Res record) (P : record -> Prop) (l : list A) :
  (forall x r, In x l -> f x = Ok r -> P r) -> Forall P (ok_prefix (map f l)).
Proof.
  induction l as [|x l IH]; intros H; simpl; [constructor|].
  destruct (f x) as [r|e] eqn:Hx; [|constructor].
  constructor; [apply (H x); [now left|exact Hx]|].
  apply IH. intros y r' Hy. apply H. now right.
Qed.

Lemma extract_posts_columns (json_data : json) (posts : list record) :
  extract_weibo_info_from_json clean_text clean_container json_data coordinates
    = Ok posts ->
  Forall (fun r => map fst r = mblog_columns) posts.
Proof.
  destruct (success_cards json_data) as [cards|] eqn:Hs.
  - rewrite (extract_success clean_text clean_container coordinates json_data Hs).
    intros H. injection H as <-.
    apply ok_prefix_Forall. intros mblog r Hin Hr.
    destruct (qualifying_are_dicts cards mblog Hin) as [m ->].
    destruct (extract_mblog_info_record clean_text clean_container m coordinates Hr)
      as [H _]. exact H.
  - rewrite (extract_not_success clean_text clean_container coordinates json_data Hs).
    intros H. injection H as <-. constructor.
Qed.

Lemma run_attempt_posts (out : attempt_outcome) posts is_end_of_data :
  run_attempt clean_text clean_container out location coordinates
    = Fetched posts is_end_of_data ->
  Forall (post_of_location location) posts.
Proof.
  unfold run_attempt. destruct out as [e|status_code [|json_data]];
    try discriminate.
  - destruct (status_code =? 200)%Z; discriminate.
  - destruct (status_code =? 200)%Z; [|discriminate]. unfold read_response.
    destruct (log_response_structure json_data) as [u|e];
      [|destruct e; discriminate].
    destruct (extract_weibo_info_from_json clean_text clean_container json_data
                coordinates) as [weibo_posts|e] eqn:He; [|destruct e; discriminate].
    destruct (end_of_data_flag json_data) as [flag|e];
      [|destruct e; discriminate].
    cbv iota. intros H. injection H as <- _.
    apply extract_posts_columns in He.
    apply Forall_map. revert He. apply Forall_impl.
    intros r. apply set_location_columns.
Qed.

(** What the loop does to the posts and to their counter, whatever the
    number of attempts. *)
Lemma attempts_posts (remaining : nat) :
  forall (attempt : Z) (api_url : cell) (retry_count : Z) (delay : Q)
         (w : world) posts is_end_of_data w',
    attempts clean_text clean_container net remaining attempt api_url location
      coordinates retry_count delay w = ((posts, is_end_of_data), w') ->
    Forall (post_of_location location) posts
    /\ (total_posts (stats w')
        = total_posts (stats w) + Z.of_nat (List.length posts))%Z
    /\ (total_requests (stats w') = total_requests (stats w)).
Proof.
  induction remaining as [|r IH];
    intros attempt api_url retry_count delay w posts is_end_of_data w' Hrun;
    simpl in Hrun.
  - injection Hrun as <- <- <-. simpl. split; [constructor|]. split; [lia|reflexivity].
  - destruct (run_attempt clean_text clean_container
                (net (List.length (gets w)) api_url) location coordinates)
      as [weibo_posts flag|] eqn:Hout.
    + injection Hrun as <- <- <-. simpl.
      split; [exact (run_attempt_posts _ Hout)|]. split; reflexivity.
    + destruct (attempt <? retry_count - 1)%Z.
      * apply IH in Hrun. simpl in Hrun. exact Hrun.
      * injection Hrun as <- <- <-. simpl.
        split; [constructor|]. split; [lia|reflexivity].
Qed.

(** X3. Every post that [fetch_weibo_data_from_api] returns has the 23
    columns of the data file, in the same order, and carries the location
    the call was made for in its [location] column. *)
Theorem fetch_weibo_data_from_api_posts (api_url : cell)
  (page retry_count : Z) (delay : Q) (w : world) posts is_end_of_data w' :
  fetch api_url page retry_count delay w = ((posts, is_end_of_data), w') ->
  Forall (post_of_location location) posts.
Proof.
  unfold fetch_weibo_data_from_api. intros Hrun.
  apply attempts_posts in Hrun. tauto.
Qed.

(** X4. Whatever [retry_count] is, a call adds to [total_posts] exactly the
    number of posts it returns. *)
Theorem fetch_weibo_data_from_api_total_posts (api_url : cell)
  (page retry_count : Z) (delay : Q) (w : world) posts is_end_of_data w' :
  fetch api_url page retry_count delay w = ((posts, is_end_of_data), w') ->
  (total_posts (stats w')
   = total_posts (stats w) + Z.of_nat (List.length posts))%Z.
Proof.
  unfold fetch_weibo_data_from_api. intros Hrun.
  apply attempts_posts in Hrun. simpl in Hrun. tauto.
Qed.

(** X5. With [retry_count <= 0] the loop body never runs: no request is
    made and nothing is slept, the call returns the empty list and [False],
    and it counts a request that is neither successful nor failed, so that
    [total_requests = successful_requests + failed_requests] no longer
    holds afterwards. *)
Theorem fetch_weibo_data_from_api_no_attempt (api_url : cell)
  (page retry_count : Z) (delay : Q) (w : world) res w' :
  (retry_count <= 0)%Z ->
  fetch api_url page retry_count delay w = (res, w') ->
  res = ([], false)
  /\ gets w' = gets w /\ sleeps w' = sleeps w
  /\ (total_requests (stats w') = total_requests (stats w) + 1)%Z
  /\ successful_requests (stats w') = successful_requests (stats w)
  /\ failed_requests (stats w') = failed_requests (stats w)
  /\ ((total_requests (stats w)
       = successful_requests (stats w) + failed_requests (stats w))%Z ->
      (total_requests (stats w')
       <> successful_requests (stats w') + failed_requests (stats w'))%Z).
Proof.
  intros Hn. unfold fetch_weibo_data_from_api.
  replace (Z.to_nat retry_count) with O by lia. simpl.
  intros H. injection H as <- <-. simpl.
  repeat split; try reflexivity. lia.
Qed.

(** X20. The end-of-data flag is never raised without cause: when a call
    with [retry_count >= 1] returns [True] as its flag, it returns no post,
    and one of its attempts got status 200 with a dict whose [ok] is 0 and
    whose [msg] holds the no-content message. *)
Theorem fetch_weibo_data_from_api_end_flag_sound (api_url : cell)
  (page retry_count : Z) (delay : Q) (w : world) weibo_posts w' :
  (1 <= retry_count)%Z ->
  fetch api_url page retry_count delay w = ((weibo_posts, true), w') ->
  weibo_posts = []
  /\ exists (i : nat) (json_data : json),
       (i < Z.to_nat retry_count)%nat
       /\ net (List.length (gets w) + i) api_url = Response 200 (Json json_data)
       /\ is_no_content json_data = true.
Proof.
  intros Hn Hrun.
  exact (@fetch_end_of_data_sound clean_text clean_container net location
           coordinates api_url page retry_count delay w weibo_posts w' Hn Hrun).
Qed.


End FetchMore.

(** ** The time a call can sleep *)

Section FetchSleep.

Variable clean_text : pystr -> pystr.
Variable clean_container : json -> Res pystr.
Variable net : nat -> cell -> attempt_outcome.
Variable location : pystr.
Variable coordinates : json.

Lemma total_sleep_app (a b : list Q) :
  total_sleep (a ++ b) == total_sleep a + total_sleep b.
Proof.
  induction a as [|x a IH]; simpl.
  - ring.
  - rewrite IH. ring.
Qed.

(** The sleeps after [k] failed attempts add up to [delay * k (k + 1) / 2]. *)
Lemma total_sleep_backoff (delay : Q) (k : nat) :
  2 * total_sleep
        (map (fun attempt => delay * inject_Z (Z.of_nat attempt + 1)) (seq 0 k))
  == delay * inject_Z (Z.of_nat k * (Z.of_nat k + 1)).
Proof.
  induction k as [|k IH].
  - simpl. ring.
  - rewrite seq_S, map_app, total_sleep_app. simpl map. simpl total_sleep.
    rewrite Qmult_plus_distr_r, IH.
    rewrite Nat2Z.inj_succ, <- Z.add_1_r.
    rewrite !inject_Z_mult, !inject_Z_plus. simpl (0 + k)%nat.
    change (inject_Z 1) with 1. ring.
Qed.


End FetchSleep.

(** ** A whole run of [collect_weibo_data_from_csv] *)

Section CollectMore.

Variable clean_text : pystr -> pystr.
Variable clean_container : json -> Res pystr.
Variable net : nat -> cell -> attempt_outcome.
Variable os_path_join : pystr -> pystr -> pystr.

Local Arguments fetch_weibo_data_from_api : simpl never.

Lemma accounts_refl (w : world) : accounts w w [] 0.
Proof.
  unfold accounts. rewrite app_nil_r. simpl.
  repeat split; try lia. constructor.
Qed.

Lemma accounts_trans (w w1 w2 : world) (evs1 evs2 : list page_event) (b1 b2 : nat) :
  accounts w w1 evs1 b1 -> accounts w1 w2 evs2 b2 ->
  accounts w w2 (evs1 ++ evs2) (b1 + b2).
Proof.
  unfold accounts.
  intros (T1 & F1 & G1 & R1 & S1 & P1 & L1) (T2 & F2 & G2 & R2 & S2 & P2 & L2).
  rewrite map_app, concat_app, !length_app.
  split; [rewrite T2, T1, app_assoc; reflexivity|].
  split; [congruence|].
  split; [lia|]. split; [lia|]. split; [lia|]. split; [lia|].
  apply Forall_app. now split.
Qed.

Lemma accounts_bound (w w' : world) (evs : list page_event) (b b' : nat) :
  (b <= b')%nat -> accounts w w' evs b -> accounts w w' evs b'.
Proof.
  unfold accounts. intros Hb (T & F & G & R). repeat split; try tauto. lia.
Qed.

(** One page: the fetch and the note of what it returned. *)
Lemma page_accounts (api_url : cell) (location : pystr) (page : Z)
  (coordinates : json) (delay : Q) (w : world) posts is_end_of_data w1 :
  fetch_weibo_data_from_api clean_text clean_container net api_url location
    page coordinates 3 delay w = ((posts, is_end_of_data), w1) ->
  accounts w
    (log_event {| ev_location := location; ev_page := page; ev_posts := posts;
                  ev_end_of_data := is_end_of_data |} w1)
    [ {| ev_location := location; ev_page := page; ev_posts := posts;
         ev_end_of_data := is_end_of_data |} ] 3.
Proof.
  intros Hrun.
  pose proof Hrun as Hacc. unfold fetch_weibo_data_from_api in Hacc.
  apply attempts_posts in Hacc. simpl in Hacc.
  destruct Hacc as (Hposts & Htotal & _).
  destruct (@fetch_spec clean_text clean_container net location coordinates
              api_url page 3 delay w _ _ ltac:(lia) Hrun)
    as (m & Hm & Hgets & _ & Htrace & Hfiles & _ & Hlast).
  unfold accounts. simpl. rewrite app_nil_r, Htrace, Hfiles, Hgets, length_app,
    repeat_length.
  change (Z.to_nat 3) with 3%nat in Hm.
  split; [reflexivity|]. split; [reflexivity|]. split; [lia|].
  assert (Hst : (total_requests (stats w1) = total_requests (stats w) + 1
                 /\ successful_requests (stats w1) + failed_requests (stats w1)
                    = successful_requests (stats w) + failed_requests (stats w) + 1)%Z).
  { destruct (run_attempt clean_text clean_container
                (net (List.length (gets w) + (m - 1)) api_url) location coordinates).
    - destruct Hlast as (_ & ->). simpl. lia.
    - destruct Hlast as (_ & _ & ->). simpl. lia. }
  split; [lia|]. split; [lia|]. split; [lia|].
  constructor; [exact Hposts|constructor].
Qed.

Lemma accounts_sleep (w w' : world) (evs : list page_event) (b : nat) (d : Q) :
  accounts w w' evs b -> accounts w (sleep d w') evs b.
Proof. unfold accounts. simpl. tauto. Qed.

Lemma page_loop_accounts (remaining : nat) :
  forall (page : Z) (location_df : list csv_row) (current_max_page : Z)
         (base : pystr) (location : pystr) (coordinates : json) (delay : Q)
         (location_posts : list record) (w : world) posts' w',
    page_loop clean_text clean_container net remaining page location_df
      current_max_page base location coordinates delay location_posts w
    = (posts', w') ->
    exists evs : list page_event,
      accounts w w' evs (3 * remaining)
      /\ (List.length evs <= remaining)%nat
      /\ Forall (fun e => ev_location e = location) evs
      /\ posts' = location_posts ++ List.concat (map ev_posts evs).
Proof.
  induction remaining as [|r IH];
    intros page location_df current_max_page base location coordinates delay
           location_posts w posts' w' Hrun.
  - simpl in Hrun. injection Hrun as <- <-. exists [].
    split; [apply accounts_refl|]. split; [simpl; lia|].
    split; [constructor|]. simpl. now rewrite app_nil_r.
  - simpl in Hrun.
    destruct (fetch_weibo_data_from_api clean_text clean_container net
                (page_url location_df current_max_page base page) location
                page coordinates 3 delay w)
      as [[weibo_posts is_end_of_data] w1] eqn:Hfetch.
    apply page_accounts in Hfetch.
    set (e := {| ev_location := location; ev_page := page;
                 ev_posts := weibo_posts;
                 ev_end_of_data := is_end_of_data |}) in *.
    assert (Hposts : match weibo_posts with
                     | [] => location_posts
                     | _ :: _ => location_posts ++ weibo_posts
                     end = location_posts ++ weibo_posts).
    { destruct weibo_posts; [now rewrite app_nil_r|reflexivity]. }
    rewrite Hposts in Hrun. clear Hposts.
    destruct is_end_of_data.
    + injection Hrun as <- <-. exists [e].
      split; [eapply accounts_bound; [|exact Hfetch]; lia|].
      split; [simpl; lia|]. split; [constructor; [reflexivity|constructor]|].
      simpl. now rewrite app_nil_r.
    + apply IH in Hrun. destruct Hrun as (evs & Hacc & Hlen & Hloc & Hp).
      exists (e :: evs).
      split.
      { apply accounts_bound with (b := (3 + 3 * r)%nat); [lia|].
        apply (accounts_trans (evs1 := [e]) Hfetch).
        destruct (Qle_bool delay 0); [exact Hacc|].
        unfold accounts in *. simpl in *. exact Hacc. }
      split; [simpl; lia|]. split; [constructor; [reflexivity|exact Hloc]|].
      rewrite Hp, <- app_assoc. reflexivity.
Qed.

Lemma collect_location_accounts (df : frame) (location : pystr) (delay : Q)
  (max_pages_to_test : Z) (w : world) r w' :
  collect_location clean_text clean_container net df location delay
    max_pages_to_test w = (r, w') ->
  exists evs : list page_event,
    accounts w w' evs (3 * Z.to_nat max_pages_to_test)
    /\ Forall (fun e => ev_location e = location) evs
    /\ match r with
       | Ok location_posts => location_posts = List.concat (map ev_posts evs)
       | Raise _ => True
       end.
Proof.
  unfold collect_location. intros Hrun.
  assert (Hnone : forall e, (Raise e, w) = (r, w') ->
            exists evs : list page_event,
              accounts w w' evs (3 * Z.to_nat max_pages_to_test)
              /\ Forall (fun e => ev_location e = location) evs
              /\ match r with
                 | Ok location_posts =>
                     location_posts = List.concat (map ev_posts evs)
                 | Raise _ => True
                 end).
  { intros e H. injection H as <- <-. exists [].
    split; [eapply accounts_bound; [|apply accounts_refl]; lia|].
    split; [constructor|exact I]. }
  destruct (negb (has_column df "Page")); [eapply Hnone; eassumption|].
  destruct (sort_values _) as [|first_row others]; [eapply Hnone; eassumption|].
  destruct (API_URL first_row) as [base_url| |];
    try (eapply Hnone; eassumption).
  destruct (page_loop _ _ _ _ _ _ _ _ _ _ _ _ _) as [location_posts w1] eqn:Hloop.
  injection Hrun as <- <-.
  apply page_loop_accounts in Hloop.
  destruct Hloop as (evs & Hacc & _ & Hloc & Hp).
  exists evs. split; [exact Hacc|]. split; [exact Hloc|exact Hp].
Qed.

Lemma sum_counts_app (a b : list (pystr * Z)) :
  sum_counts (a ++ b) = (sum_counts a + sum_counts b)%Z.
Proof.
  unfold sum_counts. induction a as [|x a IH]; simpl; [reflexivity|].
  rewrite map_app in IH. rewrite map_app, IH. lia.
Qed.

Lemma locations_loop_accounts (df : frame) (delay : Q) (max_pages_to_test : Z)
  (locations : list pystr) :
  forall (all_weibo_data : list record) (location_stats : list (pystr * Z))
         (w : world) r w',
    locations_loop clean_text clean_container net locations df delay
      max_pages_to_test all_weibo_data location_stats w = (r, w') ->
    exists evs : list page_event,
      accounts w w' evs
        (3 * Z.to_nat max_pages_to_test * List.length locations)
      /\ Forall (fun e => In (ev_location e) locations) evs
      /\ match r with
         | Ok (all', stats') =>
             all' = all_weibo_data ++ List.concat (map ev_posts evs)
             /\ map fst stats' = map fst location_stats ++ locations
             /\ (sum_counts stats'
                 = sum_counts location_stats
                   + Z.of_nat (List.length (List.concat (map ev_posts evs))))%Z
         | Raise _ => True
         end.
Proof.
  induction locations as [|location rest IH];
    intros all_weibo_data location_stats w r w' Hrun; simpl in Hrun.
  - injection Hrun as <- <-. exists [].
    split; [eapply accounts_bound; [|apply accounts_refl]; lia|].
    split; [constructor|]. simpl. rewrite !app_nil_r.
    repeat split. lia.
  - destruct (collect_location clean_text clean_container net df location delay
                max_pages_to_test w) as [[location_posts|e] w1] eqn:Hloc.
    + apply collect_location_accounts in Hloc.
      destruct Hloc as (evs & Hacc & Hl & ->).
      apply IH in Hrun. destruct Hrun as (evs' & Hacc' & Hl' & Hr).
      exists (evs ++ evs').
      split.
      { eapply accounts_bound; [|exact (accounts_trans Hacc Hacc')].
        simpl List.length. lia. }
      split.
      { apply Forall_app. split.
        - revert Hl. apply Forall_impl. intros ev ->. now left.
        - revert Hl'. apply Forall_impl. intros ev H. now right. }
      destruct r as [[all' stats']|]; [|exact I].
      destruct Hr as (-> & Hkeys & Hsum).
      rewrite map_app, concat_app, length_app.
      split; [now rewrite app_assoc|].
      split.
      { rewrite Hkeys, map_app. simpl. now rewrite <- app_assoc. }
      rewrite Hsum, sum_counts_app. unfold sum_counts at 2. simpl. lia.
    + apply collect_location_accounts in Hloc.
      destruct Hloc as (evs & Hacc & Hl & _).
      injection Hrun as <- <-. exists evs.
      split.
      { eapply accounts_bound; [|exact Hacc]. simpl List.length. nia. }
      split; [|exact I].
      revert Hl. apply Forall_impl. intros ev ->. now left.
Qed.

(** A run as a whole: the pages fetched, and the two files of a run that
    returns [True]. *)
Lemma collect_run_accounts (cookies : pystr) (csv : Res frame)
  (output_dir output_file : pystr) (delay : Q) (max_pages_to_test : Z)
  (to_csv save_statistics : Res unit) (w : world) b w' :
  collect_weibo_data_from_csv clean_text clean_container net os_path_join
    cookies csv output_dir output_file delay max_pages_to_test to_csv
    save_statistics w = (b, w') ->
  let locations := match csv with
                   | Ok df => unique (map Location (rows df))
                   | Raise _ => []
                   end in
  exists (evs : list page_event) (w1 : world),
    accounts w w1 evs (3 * Z.to_nat max_pages_to_test * List.length locations)
    /\ Forall (fun e => In (ev_location e) locations) evs
    /\ stats w' = stats w1 /\ gets w' = gets w1 /\ trace w' = trace w1
    /\ (b = true ->
        exists location_stats,
          files w' = files w ++
            [(os_path_join output_dir output_file,
              DataCsv (List.concat (map ev_posts evs)));
             (stats_file_of (os_path_join output_dir output_file),
              StatsTxt (stats w') location_stats)]
          /\ map fst location_stats = locations
          /\ sum_counts location_stats
             = Z.of_nat (List.length (List.concat (map ev_posts evs)))).
Proof.
  intros Hrun locations. apply collect_cases in Hrun.
  destruct Hrun as [(-> & -> & _)
                   |(_ & df & evs & r & w1 & Hcsv & _ & _ & Hloop & _ & _ & Hr)].
  - exists [], w.
    split; [eapply accounts_bound; [|apply accounts_refl]; lia|].
    split; [constructor|]. repeat split; try reflexivity. discriminate.
  - subst csv. simpl in locations.
    apply locations_loop_accounts in Hloop.
    destruct Hloop as (evs' & Hacc & Hlocs & Hres).
    exists evs', w1. split; [exact Hacc|]. split; [exact Hlocs|].
    destruct r as [[all_weibo_data location_stats]|e].
    + destruct Hr as (_ & Hr). destruct Hres as (Hall & Hkeys & Hsum).
      simpl in Hall, Hkeys, Hsum.
      destruct all_weibo_data as [|p all_weibo_data].
      * destruct Hr as (-> & ->). repeat split; try reflexivity. discriminate.
      * destruct to_csv as [u|e];
          [|destruct Hr as (-> & ->); repeat split; try reflexivity; discriminate].
        destruct save_statistics as [u'|e]; destruct Hr as (-> & ->);
          [|repeat split; try reflexivity; discriminate].
        repeat split; try reflexivity.
        intros _. exists location_stats. simpl.
        destruct Hacc as (_ & Hf & _). rewrite Hf, <- app_assoc, <- Hall.
        repeat split; [exact Hkeys|]. rewrite Hsum, <- Hall. reflexivity.
    + destruct Hr as (-> & ->). repeat split; try reflexivity. discriminate.
Qed.

(** X8. A run makes at most three requests per page and [max_pages_to_test]
    pages per distinct location of the CSV: at most
    [3 * max_pages_to_test * (number of locations)] requests in all, and
    none when the CSV cannot be read. *)
Theorem collect_weibo_data_from_csv_requests (cookies : pystr) (csv : Res frame)
  (output_dir output_file : pystr) (delay_between_requests : Q)
  (max_pages_to_test : Z) (to_csv save_statistics : Res unit) (w : world) b w' :
  collect_weibo_data_from_csv clean_text clean_container net os_path_join
    cookies csv output_dir output_file delay_between_requests
    max_pages_to_test to_csv save_statistics w = (b, w') ->
  (List.length (gets w')
   <= List.length (gets w)
      + 3 * Z.to_nat max_pages_to_test
        * match csv with
          | Ok df => List.length (unique (map Location (rows df)))
          | Raise _ => 0
          end)%nat.
Proof.
  intros Hrun. apply collect_run_accounts in Hrun.
  destruct Hrun as (evs & w1 & Hacc & _ & _ & -> & _).
  destruct Hacc as (_ & _ & Hgets & _).
  destruct csv; simpl in *; lia.
Qed.


(** X10. When a run returns [True], the statistics file agrees with the
    data file written just before it: it lists the distinct locations of
    the CSV in their order of first appearance, its per-location counts
    add up to the number of rows of the data file, and its posts counter
    is the counter before the run plus that number. *)
Theorem collect_weibo_data_from_csv_statistics (cookies : pystr) (df : frame)
  (output_dir output_file : pystr) (delay_between_requests : Q)
  (max_pages_to_test : Z) (to_csv save_statistics : Res unit) (w w' : world) :
  collect_weibo_data_from_csv clean_text clean_container net os_path_join
    cookies (Ok df) output_dir output_file delay_between_requests
    max_pages_to_test to_csv save_statistics w = (true, w') ->
  exists posts st location_stats,
    files w' = files w ++
      [(os_path_join output_dir output_file, DataCsv posts);
       (stats_file_of (os_path_join output_dir output_file),
        StatsTxt st location_stats)]
    /\ map fst location_stats = unique (map Location (rows df))
    /\ sum_counts location_stats = Z.of_nat (List.length posts)
    /\ (total_posts st = total_posts (stats w) + Z.of_nat (List.length posts))%Z.
Proof.
  intros Hrun. apply collect_run_accounts in Hrun.
  destruct Hrun as (evs & w1 & Hacc & _ & Hstats & _ & _ & Htrue).
  destruct (Htrue eq_refl) as (location_stats & Hfiles & Hkeys & Hsum).
  destruct Hacc as (_ & _ & _ & _ & _ & Hposts & _).
  exists (List.concat (map ev_posts evs)), (stats w'), location_stats.
  split; [exact Hfiles|]. split; [exact Hkeys|]. split; [exact Hsum|].
  rewrite Hstats. exact Hposts.
Qed.

(** X11. Every row of the data file that a run writes has the 23 columns of
    a post, in the same order, and its [location] is one of the locations
    of the input CSV. *)
Theorem collect_weibo_data_from_csv_rows (cookies : pystr) (df : frame)
  (output_dir output_file : pystr) (delay_between_requests : Q)
  (max_pages_to_test : Z) (to_csv save_statistics : Res unit) (w w' : world) :
  collect_weibo_data_from_csv clean_text clean_container net os_path_join
    cookies (Ok df) output_dir output_file delay_between_requests
    max_pages_to_test to_csv save_statistics w = (true, w') ->
  exists posts st location_stats,
    files w' = files w ++
      [(os_path_join output_dir output_file, DataCsv posts);
       (stats_file_of (os_path_join output_dir output_file),
        StatsTxt st location_stats)]
    /\ Forall (fun post =>
                 exists location,
                   In location (map Location (rows df))
                   /\ post_of_location location post) posts.
Proof.
  intros Hrun. apply collect_run_accounts in Hrun.
  destruct Hrun as (evs & w1 & Hacc & Hlocs & _ & _ & _ & Htrue).
  destruct (Htrue eq_refl) as (location_stats & Hfiles & _ & _).
  destruct Hacc as (_ & _ & _ & _ & _ & _ & Hposts).
  exists (List.concat (map ev_posts evs)), (stats w'), location_stats.
  split; [exact Hfiles|].
  apply Forall_forall. intros post Hin.
  apply in_concat in Hin. destruct Hin as (ps & Hps & Hin).
  apply in_map_iff in Hps. destruct Hps as (e & <- & He).
  rewrite Forall_forall in Hlocs, Hposts.
  exists (ev_location e). split.
  - pose proof (Hlocs e He) as Hl. unfold unique in Hl.
    apply In_unique_from in Hl;
      [exact Hl|exact clean_text|exact os_path_join].
  - pose proof (Hposts e He) as H. rewrite Forall_forall in H. now apply H.
Qed.

End CollectMore.

(** ** File names and base URLs *)

Section PathFacts.

Lemma contains_unfold (p s : pystr) :
  contains p s
  = starts_with p s || match s with [] => false | _ :: s' => contains p s' end.
Proof. destruct s; reflexivity. Qed.

Lemma contains_nil (p : pystr) : p <> [] -> contains p [] = false.
Proof. destruct p; [contradiction|reflexivity]. Qed.

Lemma starts_with_prefix (p a b : pystr) :
  starts_with p a = true -> starts_with p (a ++ b) = true.
Proof.
  intros H. destruct (starts_with_inv _ _ H) as [r ->].
  rewrite <- app_assoc. apply starts_with_app.
Qed.

(** A replacement by a longer string never shortens the text, and
    lengthens it as soon as there is an occurrence. *)
Lemma Replaced_length (old new : pystr) :
  old <> [] -> (List.length old < List.length new)%nat ->
  forall s r, Replaced old new s r ->
    (List.length s <= List.length r)%nat
    /\ (contains old s = true -> (List.length s < List.length r)%nat).
Proof.
  intros Hold Hlen s r H.
  induction H as [|s r H [IHle IHlt]|c s r Hc H [IHle IHlt]].
  - split; [lia|]. rewrite contains_nil by assumption. discriminate.
  - rewrite !length_app. split; [lia|]. intros _. lia.
  - simpl List.length. split; [lia|].
    rewrite contains_unfold, Hc. simpl. intros H'. apply IHlt in H'. lia.
Qed.

Lemma Replaced_no_occurrence (old new : pystr) :
  forall s r, Replaced old new s r -> contains old s = false -> r = s.
Proof.
  intros s r H. induction H as [|s r H IH|c s r Hc H IH]; intros Hno.
  - reflexivity.
  - rewrite contains_unfold, starts_with_app in Hno. discriminate.
  - rewrite contains_unfold, Hc in Hno. simpl in Hno. now rewrite IH.
Qed.

(** X12. The statistics file gets the path of the data file itself exactly
    when that path has no [.csv] in it: [_save_statistics] then opens the
    data file written a moment before for writing. *)
Theorem stats_file_of_same_path (output_path : pystr) :
  stats_file_of output_path = output_path
  <-> contains (lit ".csv") output_path = false.
Proof.
  unfold stats_file_of.
  assert (Hold : lit ".csv" <> []) by discriminate.
  pose proof (replace_Replaced (lit "_stats.txt") Hold output_path) as Hrep.
  split.
  - intros Heq. destruct (contains (lit ".csv") output_path) eqn:Hc; [|reflexivity].
    assert (Hlen : (List.length (lit ".csv") < List.length (lit "_stats.txt"))%nat)
      by (simpl; lia).
    destruct (Replaced_length Hold Hlen Hrep) as [_ Hlt].
    specialize (Hlt Hc). rewrite Heq in Hlt. lia.
  - intros Hno. exact (Replaced_no_occurrence Hrep Hno).
Qed.

(** X13. The base URL without its page ([base_url.split('&page=')[0]]) is
    the part of the URL before the first [&page=]: it is a prefix of the
    URL, it contains no [&page=], it is the whole URL when that contains
    none, and otherwise the URL continues with [&page=]. *)
Theorem before_first_spec (sep s : pystr) :
  sep <> [] ->
  (exists rest, s = before_first sep s ++ rest)
  /\ contains sep (before_first sep s) = false
  /\ (contains sep s = false -> before_first sep s = s)
  /\ (contains sep s = true ->
      exists rest, s = before_first sep s ++ sep ++ rest).
Proof.
  intros Hsep. induction s as [|c s (IHp & IHn & IHs & IHc)].
  - assert (Hb : before_first sep [] = []).
    { simpl. now destruct (starts_with sep []). }
    rewrite Hb, contains_nil by assumption.
    repeat split; try reflexivity; [now exists []|discriminate].
  - simpl before_first. rewrite (contains_unfold sep (c :: s)).
    destruct (starts_with sep (c :: s)) eqn:Hstart.
    + rewrite contains_nil by assumption.
      split; [now exists (c :: s)|]. split; [reflexivity|].
      split; [discriminate|]. intros _.
      destruct (starts_with_inv _ _ Hstart) as [rest ->]. now exists rest.
    + simpl orb. destruct IHp as [rest Hrest].
      split; [exists rest; simpl; now rewrite <- Hrest|].
      split.
      { rewrite contains_unfold, IHn, orb_false_r.
        destruct (starts_with sep (c :: before_first sep s)) eqn:Hb;
          [|reflexivity].
        apply (starts_with_prefix _ _ rest) in Hb.
        simpl app in Hb. rewrite <- Hrest in Hb. congruence. }
      split.
      { intros Hno. now rewrite IHs. }
      intros Hyes. destruct (IHc Hyes) as [rest' Hrest'].
      exists rest'. simpl. now rewrite <- Hrest'.
Qed.

End PathFacts.

(** ** A run of the coordinate collector *)

Section AmapMore.

Variable float : Type.
Variable strip : pystr -> pystr.
Variable to_float : pystr -> option float.
Variable round2 : float -> float.
Variable fmt2 : float -> pystr.

Local Abbreviation rounded_pair := (Amap.rounded_pair strip to_float round2).
Local Abbreviation row_of := (Amap.row_of strip to_float round2 fmt2).
Local Abbreviation collect_rows := (Amap.collect_rows strip to_float round2 fmt2).

(** The loop succeeds only on rows that all parse, and then appends their
    rows in order. *)
Lemma collect_rows_rows (locations : list (pystr * Amap.picker)) :
  forall (results : list Amap.result_row) (m : Amap.coord_map) results' m',
    collect_rows locations results m = (Ok results', m') ->
    exists added,
      results' = results ++ added
      /\ map row_of locations = map Some added.
Proof.
  induction locations as [|[raw_location p] rest IH];
    intros results m results' m' Hrun; simpl in Hrun.
  - injection Hrun as <- <-. exists []. now rewrite app_nil_r.
  - rewrite get_coordinates_cases in Hrun.
    destruct (rounded_pair p) as [[lat lng]|] eqn:Hp; [|discriminate].
    destruct (Amap.lookup m (Amap.coord_key fmt2 lng lat)); [discriminate|].
    apply IH in Hrun. destruct Hrun as (added & -> & Hrows).
    eexists. split; [rewrite <- app_assoc; reflexivity|].
    simpl map. rewrite Hrows. f_equal.
    unfold Amap.row_of. simpl. rewrite Hp. reflexivity.
Qed.

(** The loop succeeds on rows that all parse to keys that are new and
    pairwise distinct. *)
Lemma collect_rows_succeeds (locations : list (pystr * Amap.picker)) :
  forall (added results : list Amap.result_row) (m : Amap.coord_map),
    map row_of locations = map Some added ->
    NoDup (map (@Amap.Coordinates) added) ->
    (forall row, In row added -> Amap.lookup m (Amap.Coordinates row) = None) ->
    exists m', collect_rows locations results m = (Ok (results ++ added), m').
Proof.
  induction locations as [|[raw_location p] rest IH];
    intros added results m Hrows Hnodup Hnew.
  - destruct added; [|discriminate]. exists m. simpl. now rewrite app_nil_r.
  - destruct added as [|row added]; [discriminate|].
    simpl map in Hrows. injection Hrows as Hrow Hrows.
    unfold Amap.row_of in Hrow. simpl fst in Hrow. simpl snd in Hrow.
    simpl. rewrite get_coordinates_cases.
    destruct (rounded_pair p) as [[lat lng]|]; [|discriminate].
    injection Hrow as <-.
    pose proof (Hnew _ (or_introl eq_refl)) as Hfresh. simpl in Hfresh.
    rewrite Hfresh.
    simpl in Hnodup. inversion Hnodup as [|k ks Hk Hnodup']. subst.
    destruct (IH added
                (results ++
                 [ {| Amap.Location := strip raw_location;
                      Amap.Latitude := fmt2 lat;
                      Amap.Longitude := fmt2 lng;
                      Amap.Coordinates := fmt2 lng ++ [Amap.comma] ++ fmt2 lat |} ])
                (Amap.store m (Amap.coord_key fmt2 lng lat) (strip raw_location))
                Hrows Hnodup') as [m' Hm'].
    { intros row Hin. rewrite lookup_store_other.
      - apply Hnew. now right.
      - intros Heq. apply Hk. rewrite <- Heq. now apply in_map. }
    exists m'. etransitivity; [exact Hm'|].
    rewrite <- app_assoc. reflexivity.
Qed.


End AmapMore.

(** ** Place URLs and the rows of the URL file *)

Section UrlGenFacts.

Variable is_digit : pychar -> bool.
Variable strip : pystr -> pystr.

Local Abbreviation commas s := (count_occ N.eq_dec s Amap.comma).

(** [split(",")] gives one piece more than there are commas. *)
Lemma split_comma_length (s : pystr) :
  forall cur, List.length (Amap.split_comma cur s) = S (commas s).
Proof.
  induction s as [|c s IH]; intros cur; simpl; [reflexivity|].
  destruct (N.eqb_spec c Amap.comma) as [->|Hne].
  - simpl. rewrite IH. destruct (N.eq_dec Amap.comma Amap.comma); congruence.
  - rewrite IH. destruct (N.eq_dec c Amap.comma); congruence.
Qed.

Lemma place_url_iff_one_comma (coordinates : pystr) :
  (exists url, UrlGen.get_weibo_place_url strip coordinates = Some url)
  <-> commas coordinates = 1%nat.
Proof.
  unfold UrlGen.get_weibo_place_url.
  pose proof (split_comma_length coordinates []) as Hlen.
  destruct (Amap.split_comma [] coordinates) as [|lng [|lat [|x rest]]];
    simpl in Hlen.
  - lia.
  - split; [intros [url H]; discriminate|intros H; lia].
  - split; [intros _; lia|intros _; eauto].
  - split; [intros [url H]; discriminate|intros H; lia].
Qed.

(** X15. [get_weibo_place_url] gives a URL exactly for the coordinates
    with exactly one comma; for any other number of commas the unpacking
    of [split(',')] raises and the result is [None].  The URL is the map
    address with the two stripped pieces and the zoom [12z]. *)
Theorem get_weibo_place_url_one_comma (coordinates : pystr) :
  ((exists url, UrlGen.get_weibo_place_url strip coordinates = Some url)
   <-> commas coordinates = 1%nat)
  /\ (forall url,
        UrlGen.get_weibo_place_url strip coordinates = Some url ->
        exists lng lat,
          Amap.split_comma [] coordinates = [lng; lat]
          /\ url = lit "https://place.weibo.com/wandermap/?maploc="
                   ++ strip lng ++ lit "," ++ strip lat ++ lit ",12z").
Proof.
  unfold UrlGen.get_weibo_place_url.
  pose proof (split_comma_length coordinates []) as Hlen.
  destruct (Amap.split_comma [] coordinates) as [|lng [|lat [|x rest]]];
    simpl in Hlen.
  - lia.
  - split; [split; [intros [url H]; discriminate|intros H; lia]|discriminate].
  - split; [split; [intros _; lia|intros _; eauto]|].
    intros url H. injection H as <-. exists lng, lat. now split.
  - split; [split; [intros [url H]; discriminate|intros H; lia]|discriminate].
Qed.

(** A rewritten string keeps the characters before its first [&]. *)
Lemma PageRewritten_keep_prefix (repl a t r : pystr) :
  Forall (fun c => c <> 38%N) a ->
  PageRewritten is_digit repl (a ++ t) r ->
  exists t', r = a ++ t' /\ PageRewritten is_digit repl t t'.
Proof.
  intros Ha. revert r. induction Ha as [|c a Hc Ha IH]; intros r H.
  - exists r. now split.
  - simpl in H. inversion H as [|d ds s' r' Hd Hn H' Hs|c' s' r' Hc' H' Hs].
    + congruence.
    + destruct (IH _ H') as (t' & -> & Ht'). exists t'. now split.
Qed.

Lemma PageRewritten_contains (repl d s r : pystr) :
  repl = lit "&page=" ++ d ->
  PageRewritten is_digit repl s r ->
  contains (lit "&page=") s = true -> contains (lit "&page=") r = true.
Proof.
  intros Hrepl H.
  induction H as [|x ds s r Hd Hn H IH|c s r Hc H IH]; intros Hin.
  - rewrite contains_nil in Hin by discriminate. discriminate.
  - rewrite contains_unfold, Hrepl, <- app_assoc, starts_with_app. reflexivity.
  - rewrite contains_unfold in Hin. rewrite contains_unfold.
    destruct (starts_with (lit "&page=") (c :: s)) eqn:Hstart.
    + destruct (starts_with_inv _ _ Hstart) as [rest Hrest].
      simpl in Hrest. injection Hrest as -> ->.
      destruct (@PageRewritten_keep_prefix repl (lit "page=") rest r) as (t' & -> & _).
      * repeat constructor; discriminate.
      * exact H.
      * reflexivity.
    + simpl in Hin. rewrite (IH Hin). apply orb_true_r.
Qed.

(** X16. The URL that [convert_cardlist_to_api_url] returns always
    contains [&page=]: it is appended when the cardlist URL has none, and
    the rewriting of the page numbers never removes one. *)
Theorem convert_cardlist_to_api_url_has_page (cardlist_url : pystr) (page : Z) :
  contains (lit "&page=")
    (convert_cardlist_to_api_url is_digit cardlist_url page) = true.
Proof.
  unfold convert_cardlist_to_api_url.
  destruct (contains (lit "&page=")
              (replace (lit "/p/cardlist") (lit "/api/container/getIndex")
                 cardlist_url)) eqn:Hc.
  - eapply PageRewritten_contains; [reflexivity| |exact Hc].
    apply re_sub_page_PageRewritten.
  - apply contains_app_r. rewrite contains_unfold, starts_with_app. reflexivity.
Qed.

Local Abbreviation both_strings :=
  (fun row : cell * cell =>
     match row with
     | (CellStr _, CellStr _) => true
     | _ => false
     end).

Local Abbreviation url_rows_loop := (UrlGen.url_rows_loop is_digit strip).

(** What the loop over the rows gives when it ends without an exception. *)
Lemma url_rows_loop_spec (rows : list (cell * cell)) :
  forall (idx : nat) (view : nat -> UrlGen.page_view) (max_pages : Z)
         (total : nat) (all_urls : list UrlGen.url_record) (slept : list Q)
         urls slept',
    (idx + List.length rows = total)%nat ->
    url_rows_loop idx rows view max_pages total all_urls slept = (Ok urls, slept') ->
    forallb both_strings rows = true
    /\ slept' = slept ++ repeat 2 (List.length rows - 1)
    /\ exists added,
         urls = all_urls ++ added
         /\ (List.length added <= List.length rows)%nat
         /\ Forall (fun u =>
                      UrlGen.Page u = 1%Z
                      /\ UrlGen.URL_Type u = lit "container_api"
                      /\ UrlGen.API_URL u
                         = convert_cardlist_to_api_url is_digit
                             (UrlGen.Cardlist_URL u) 1
                      /\ UrlGen.get_weibo_place_url strip (UrlGen.Coordinates u)
                         = Some (UrlGen.Place_URL u)
                      /\ exists l c,
                           In (CellStr l, CellStr c) rows
                           /\ UrlGen.Location u = strip l
                           /\ UrlGen.Coordinates u = strip c) added.
Proof.
  induction rows as [|[loc_cell coord_cell] rest IH];
    intros idx view max_pages total all_urls slept urls slept' Htotal Hrun.
  - simpl in Hrun. injection Hrun as <- <-.
    split; [reflexivity|]. split; [simpl; now rewrite app_nil_r|].
    exists []. rewrite app_nil_r. repeat split; auto.
  - simpl in Hrun.
    destruct loc_cell as [l| |]; try discriminate.
    destruct coord_cell as [c| |]; try discriminate.
    simpl List.length in Htotal.
    apply IH in Hrun; [|lia].
    destruct Hrun as (Hstr & Hslept & added & Hurls & Hlen & Hgood).
    split; [exact Hstr|].
    split.
    { rewrite Hslept. simpl List.length.
      replace (S (List.length rest) - 1)%nat with (List.length rest) by lia.
      destruct rest as [|row rest'].
      - replace (idx <? total - 1)%nat with false
          by (symmetry; apply Nat.ltb_ge; simpl in Htotal; lia).
        reflexivity.
      - replace (idx <? total - 1)%nat with true
          by (symmetry; apply Nat.ltb_lt; simpl in Htotal; lia).
        simpl List.length.
        replace (S (List.length rest') - 1)%nat with (List.length rest') by lia.
        rewrite <- app_assoc. reflexivity. }
    assert (Hmono : Forall (fun u =>
                      UrlGen.Page u = 1%Z
                      /\ UrlGen.URL_Type u = lit "container_api"
                      /\ UrlGen.API_URL u
                         = convert_cardlist_to_api_url is_digit
                             (UrlGen.Cardlist_URL u) 1
                      /\ UrlGen.get_weibo_place_url strip (UrlGen.Coordinates u)
                         = Some (UrlGen.Place_URL u)
                      /\ exists l0 c0,
                           In (CellStr l0, CellStr c0) ((CellStr l, CellStr c) :: rest)
                           /\ UrlGen.Location u = strip l0
                           /\ UrlGen.Coordinates u = strip c0) added).
    { revert Hgood. apply Forall_impl.
      intros u (H1 & H2 & H3 & H4 & l0 & c0 & Hin & H5 & H6).
      repeat (split; [assumption|]). exists l0, c0.
      split; [now right|now split]. }
    unfold UrlGen.generate_api_urls in Hurls.
    destruct (UrlGen.get_weibo_place_url strip (strip c)) as [place_url|] eqn:Hplace.
    + destruct (UrlGen.extract_cardlist_url_with_selenium (view idx))
        as [cardlist_url|].
      * eexists. split; [rewrite Hurls, <- app_assoc; reflexivity|].
        split; [simpl; lia|].
        constructor; [|exact Hmono]. simpl.
        repeat (split; [first [reflexivity | assumption]|]).
        exists l, c. split; [now left|now split].
      * exists added. rewrite app_nil_r in Hurls.
        split; [exact Hurls|]. split; [simpl; lia|exact Hmono].
    + exists added. rewrite app_nil_r in Hurls.
      split; [exact Hurls|]. split; [simpl; lia|exact Hmono].
Qed.

Lemma url_rows_loop_runs (rows : list (cell * cell)) :
  forallb both_strings rows = true ->
  forall (idx : nat) (view : nat -> UrlGen.page_view) (max_pages : Z)
         (total : nat) (all_urls : list UrlGen.url_record) (slept : list Q),
  exists urls slept',
    url_rows_loop idx rows view max_pages total all_urls slept = (Ok urls, slept').
Proof.
  induction rows as [|[loc_cell coord_cell] rest IH]; intros Hstr idx view
    max_pages total all_urls slept.
  - simpl. eauto.
  - simpl in Hstr. destruct loc_cell as [l| |]; try discriminate.
    destruct coord_cell as [c| |]; try discriminate.
    simpl. apply IH. exact Hstr.
Qed.


(** X18. [generate_urls_from_csv] returns [True] exactly when the CSV is
    read, has the [Location] and [Coordinates] columns, every cell of these
    two columns is a string, and the output can be written.  A single
    empty cell thus makes the run return [False] and write nothing,
    whatever the other rows gave; a location without a cardlist URL does
    not. *)
Theorem generate_urls_from_csv_succeeds
  (csv : Res (list pystr * list (cell * cell)))
  (view : nat -> UrlGen.page_view) (max_pages : Z) (to_csv : Res unit)
  b written slept :
  UrlGen.generate_urls_from_csv is_digit strip csv view max_pages to_csv
    = (b, written, slept) ->
  (b = true <->
   exists columns rows,
     csv = Ok (columns, rows)
     /\ existsb (PyStr.eqb (lit "Location")) columns = true
     /\ existsb (PyStr.eqb (lit "Coordinates")) columns = true
     /\ forallb both_strings rows = true
     /\ to_csv = Ok tt)
  /\ (b = false <-> written = None).
Proof.
  unfold UrlGen.generate_urls_from_csv. intros Hrun.
  destruct csv as [[columns rows]|e].
  2:{ injection Hrun as <- <- <-. split; [|tauto].
      split; [discriminate|]. intros (c & r & H & _). discriminate. }
  destruct (existsb (PyStr.eqb (lit "Location")) columns) eqn:Hl.
  2:{ injection Hrun as <- <- <-. split; [|tauto].
      split; [discriminate|]. intros (c & r & H & H' & _).
      injection H as <- <-. congruence. }
  destruct (existsb (PyStr.eqb (lit "Coordinates")) columns) eqn:Hc.
  2:{ injection Hrun as <- <- <-. split; [|tauto].
      split; [discriminate|]. intros (c & r & H & _ & H' & _).
      injection H as <- <-. congruence. }
  simpl in Hrun.
  destruct (url_rows_loop 0 rows view max_pages (List.length rows) [] [])
    as [[urls|e] slept1] eqn:Hloop.
  - apply url_rows_loop_spec in Hloop; [|reflexivity].
    destruct Hloop as (Hstr & _).
    destruct to_csv as [[]|e]; injection Hrun as <- <- <-.
    + split; [|split; discriminate]. split; [|reflexivity].
      intros _. exists columns, rows. repeat split; assumption.
    + split; [|tauto]. split; [discriminate|].
      intros (c & r & _ & _ & _ & _ & H). discriminate.
  - injection Hrun as <- <- <-. split; [|tauto].
    split; [discriminate|]. intros (c & r & H & _ & _ & Hstr & _).
    injection H as <- <-.
    destruct (url_rows_loop_runs rows Hstr 0 view max_pages
                (List.length rows) [] []) as (urls & slept' & Hok).
    rewrite Hloop in Hok. discriminate.
Qed.

End UrlGenFacts.

(** ** Validated coordinates *)

Section PatternFacts.

Variable is_digit : pychar -> bool.
Variable strip : pystr -> pystr.

(** The comma is not a digit. *)
Hypothesis comma_not_digit : is_digit Amap.comma = false.

Local Abbreviation commas s := (count_occ N.eq_dec s Amap.comma).

Lemma digits_no_comma (ds : pystr) :
  forallb is_digit ds = true -> commas ds = 0%nat.
Proof.
  induction ds as [|d ds IH]; simpl; [reflexivity|].
  intros H. apply andb_true_iff in H. destruct H as [Hd Hds].
  destruct (N.eq_dec d Amap.comma) as [->|_]; [congruence|]. now apply IH.
Qed.

Lemma skip_char_split (c : pychar) (s : pystr) :
  c <> Amap.comma ->
  exists pre, s = pre ++ FileConverter.skip_char c s /\ commas pre = 0%nat.
Proof.
  intros Hc. unfold FileConverter.skip_char. destruct s as [|x rest].
  - now exists [].
  - destruct (N.eqb_spec x c) as [->|_].
    + exists [c]. split; [reflexivity|]. simpl.
      destruct (N.eq_dec c Amap.comma); [contradiction|reflexivity].
    + now exists [].
Qed.

Lemma skip_digits_split (s : pystr) :
  exists pre,
    s = pre ++ FileConverter.skip_digits is_digit s /\ commas pre = 0%nat.
Proof.
  unfold FileConverter.skip_digits.
  exists (firstn (digits_prefix is_digit s) s).
  split; [now rewrite firstn_skipn|].
  apply digits_no_comma. apply digits_prefix_spec.
Qed.

(** What [-?\d+\.?\d*] consumes has no comma in it. *)
Lemma match_number_split (s rest : pystr) :
  FileConverter.match_number is_digit s = Some rest ->
  exists pre, s = pre ++ rest /\ commas pre = 0%nat.
Proof.
  unfold FileConverter.match_number.
  destruct (digits_prefix is_digit (FileConverter.skip_char FileConverter.minus s));
    [discriminate|].
  intros H. injection H as <-.
  destruct (@skip_char_split FileConverter.minus s ltac:(discriminate))
    as (p1 & H1 & C1).
  destruct (skip_digits_split (FileConverter.skip_char FileConverter.minus s))
    as (p2 & H2 & C2).
  destruct (@skip_char_split FileConverter.dot
              (FileConverter.skip_digits is_digit
                 (FileConverter.skip_char FileConverter.minus s))
              ltac:(discriminate)) as (p3 & H3 & C3).
  destruct (skip_digits_split
              (FileConverter.skip_char FileConverter.dot
                 (FileConverter.skip_digits is_digit
                    (FileConverter.skip_char FileConverter.minus s))))
    as (p4 & H4 & C4).
  exists (p1 ++ p2 ++ p3 ++ p4).
  split.
  - rewrite <- !app_assoc, <- H4, <- H3, <- H2. exact H1.
  - rewrite !count_occ_app. unfold pystr, pychar in *. lia.
Qed.

(** X19. A coordinates value that [validate_coordinates_file] accepts has
    exactly one comma, so [get_weibo_place_url] gives a place URL for it;
    and when a file is accepted, that holds for every row of it. *)
Theorem validated_coordinates_have_place_url :
  (forall coords,
     FileConverter.coordinates_match is_digit coords = true ->
     commas coords = 1%nat
     /\ exists url, UrlGen.get_weibo_place_url strip coords = Some url)
  /\ (forall columns rows,
        FileConverter.validate_coordinates_file is_digit columns rows = true ->
        Forall (fun coords =>
                  exists url, UrlGen.get_weibo_place_url strip coords = Some url)
               rows).
Proof.
  assert (Hone : forall coords,
            FileConverter.coordinates_match is_digit coords = true ->
            commas coords = 1%nat).
  { intros coords. unfold FileConverter.coordinates_match.
    destruct (FileConverter.match_number is_digit coords) as [[|c rest]|] eqn:H1;
      try discriminate.
    intros H. apply andb_true_iff in H. destruct H as [Hc H2].
    apply N.eqb_eq in Hc. subst c.
    destruct (match_number_split _ H1) as (p1 & -> & C1).
    destruct (FileConverter.match_number is_digit rest) as [tail|] eqn:H3;
      [|discriminate].
    destruct (match_number_split _ H3) as (p2 & -> & C2).
    assert (Htail : commas tail = 0%nat).
    { destruct tail as [|x [|y tail]]; try discriminate; [reflexivity|].
      apply N.eqb_eq in H2. subst x. reflexivity. }
    rewrite count_occ_app. simpl.
    destruct (N.eq_dec Amap.comma Amap.comma); [|congruence].
    rewrite count_occ_app. unfold pystr, pychar in *. lia. }
  split.
  - intros coords H. split; [now apply Hone|].
    apply (place_url_iff_one_comma strip coords). now apply Hone.
  - intros columns rows. unfold FileConverter.validate_coordinates_file.
    destruct (_ && _); [|discriminate].
    intros H. apply Forall_forall. intros coords Hin.
    rewrite forallb_forall in H.
    apply (place_url_iff_one_comma strip coords). apply Hone. now apply H.
Qed.

End PatternFacts.

(** * The further properties at work *)

Lemma triple_eta {A B C : Type} (p : A * B * C) :
  p = (fst (fst p), snd (fst p), snd p).
Proof. destruct p as [[a b] c]. reflexivity. Qed.



Lemma fetch_weibo_data_from_api_posts_witness :
  let run := fetch_weibo_data_from_api Samples.keep_text
               Samples.refuse_container Samples.one_post_then_end
               (CellStr (lit "u")) (lit "PKU") 1 JNull 3 1 init_world in
  List.length (fst (fst run)) = 1%nat
  /\ Forall (post_of_location (lit "PKU")) (fst (fst run)).
Proof.
  intros run. split; [reflexivity|].
  pose proof fetch_weibo_data_from_api_posts as T.
  specialize T with (1 := triple_eta run). exact (T 1%Z).
Defined.

Lemma fetch_weibo_data_from_api_total_posts_witness :
  let run := fetch_weibo_data_from_api Samples.keep_text
               Samples.refuse_container Samples.one_post_then_end
               (CellStr (lit "u")) (lit "PKU") 1 JNull 3 1 init_world in
  List.length (fst (fst run)) = 1%nat
  /\ total_posts (stats (snd run)) = 1%Z.
Proof.
  intros run.
  assert (Hlen : List.length (fst (fst run)) = 1%nat) by reflexivity.
  split; [exact Hlen|].
  pose proof fetch_weibo_data_from_api_total_posts as T.
  specialize T with (1 := triple_eta run).
  rewrite Hlen in T. exact (T 1%Z).
Defined.

Lemma fetch_weibo_data_from_api_no_attempt_witness :
  let run := fetch_weibo_data_from_api Samples.keep_text
               Samples.refuse_container Samples.one_post_then_end
               (CellStr (lit "u")) (lit "PKU") 1 JNull 0 1 init_world in
  (0 <= 0)%Z
  /\ fst run = ([], false)
  /\ gets (snd run) = []
  /\ total_requests (stats (snd run)) = 1%Z
  /\ (total_requests (stats (snd run))
      <> successful_requests (stats (snd run))
         + failed_requests (stats (snd run)))%Z.
Proof.
  intros run. split; [lia|].
  pose proof fetch_weibo_data_from_api_no_attempt as T.
  specialize T with (2 := surjective_pairing run).
  destruct (T 1%Z) as (Hres & Hgets & _ & Hreq & _ & _ & Hinv); [lia|].
  split; [exact Hres|]. split; [exact Hgets|]. split; [exact Hreq|].
  apply Hinv. reflexivity.
Defined.


Lemma fetch_weibo_data_from_api_end_flag_sound_witness :
  let run := fetch_weibo_data_from_api Samples.keep_text
               Samples.refuse_container
               (Samples.always (Response 200 (Json Samples.no_content)))
               (CellStr (lit "u")) (lit "PKU") 1 JNull 3 1 init_world in
  (1 <= 3)%Z
  /\ snd (fst run) = true
  /\ fst (fst run) = [].
Proof.
  intros run. split; [lia|].
  assert (Hflag : snd (fst run) = true) by reflexivity.
  split; [exact Hflag|].
  pose proof (triple_eta run) as Hrun. rewrite Hflag in Hrun.
  pose proof fetch_weibo_data_from_api_end_flag_sound as T.
  specialize T with (2 := Hrun).
  destruct (T 1%Z) as (Hnil & _); [lia|]. exact Hnil.
Defined.


Lemma collect_weibo_data_from_csv_requests_witness :
  let run := collect_weibo_data_from_csv Samples.keep_text
               Samples.refuse_container Samples.one_post_then_end
               Samples.join_path (lit "cookie=1") (Ok Samples.one_location)
               (lit "data") (lit "weibo_data_collected.csv") 1 100
               (Ok tt) (Ok tt) init_world in
  List.length (gets (snd run)) = 2%nat
  /\ (List.length (gets (snd run)) <= 0 + 3 * 100 * 1)%nat.
Proof.
  intros run. split; [reflexivity|].
  pose proof collect_weibo_data_from_csv_requests as T.
  specialize T with (1 := surjective_pairing run).
  exact T.
Defined.


Lemma collect_weibo_data_from_csv_statistics_witness :
  let run := collect_weibo_data_from_csv Samples.keep_text
               Samples.refuse_container Samples.one_post_then_end
               Samples.join_path (lit "cookie=1") (Ok Samples.one_location)
               (lit "data") (lit "weibo_data_collected.csv") 1 100
               (Ok tt) (Ok tt) init_world in
  fst run = true
  /\ exists posts st location_stats,
       files (snd run)
       = [(lit "data/weibo_data_collected.csv", DataCsv posts);
          (lit "data/weibo_data_collected_stats.txt",
           StatsTxt st location_stats)]
       /\ map fst location_stats = [lit "PKU"]
       /\ sum_counts location_stats = Z.of_nat (List.length posts)
       /\ total_posts st = Z.of_nat (List.length posts).
Proof.
  intros run.
  assert (Hb : fst run = true) by reflexivity.
  split; [exact Hb|].
  pose proof (surjective_pairing run) as Hrun. rewrite Hb in Hrun.
  pose proof collect_weibo_data_from_csv_statistics as T.
  specialize T with (1 := Hrun).
  destruct T as (posts & st & location_stats & Hfiles & Hkeys & Hsum & Htotal).
  exists posts, st, location_stats.
  split; [exact Hfiles|]. split; [exact Hkeys|]. split; [exact Hsum|].
  exact Htotal.
Defined.

Lemma collect_weibo_data_from_csv_rows_witness :
  let run := collect_weibo_data_from_csv Samples.keep_text
               Samples.refuse_container Samples.one_post_then_end
               Samples.join_path (lit "cookie=1") (Ok Samples.one_location)
               (lit "data") (lit "weibo_data_collected.csv") 1 100
               (Ok tt) (Ok tt) init_world in
  fst run = true
  /\ exists posts st location_stats,
       files (snd run)
       = [(lit "data/weibo_data_collected.csv", DataCsv posts);
          (lit "data/weibo_data_collected_stats.txt",
           StatsTxt st location_stats)]
       /\ Forall (fun post =>
                    exists location,
                      In location [lit "PKU"]
                      /\ post_of_location location post) posts.
Proof.
  intros run.
  assert (Hb : fst run = true) by reflexivity.
  split; [exact Hb|].
  pose proof (surjective_pairing run) as Hrun. rewrite Hb in Hrun.
  pose proof collect_weibo_data_from_csv_rows as T.
  specialize T with (1 := Hrun).
  destruct T as (posts & st & location_stats & Hfiles & Hrows).
  exists posts, st, location_stats.
  split; [exact Hfiles|exact Hrows].
Defined.

Lemma stats_file_of_same_path_witness :
  contains (lit ".csv") (lit "out.txt") = false
  /\ stats_file_of (lit "out.txt") = lit "out.txt"
  /\ stats_file_of (lit "out.csv") <> lit "out.csv".
Proof.
  split; [reflexivity|]. split.
  - apply stats_file_of_same_path. reflexivity.
  - intros H. apply stats_file_of_same_path in H. discriminate H.
Defined.

Lemma before_first_spec_witness :
  let sep := lit "&page=" in
  let s := lit "u?id=1&page=3" in
  sep <> []
  /\ contains sep s = true
  /\ contains sep (before_first sep s) = false
  /\ exists rest, s = before_first sep s ++ sep ++ rest.
Proof.
  intros sep s.
  assert (Hsep : sep <> []) by discriminate.
  split; [exact Hsep|]. split; [reflexivity|].
  destruct (@before_first_spec sep s Hsep) as (_ & Hno & _ & Hcut).
  split; [exact Hno|]. apply Hcut. reflexivity.
Defined.


Lemma get_weibo_place_url_one_comma_witness :
  count_occ N.eq_dec (lit "116.31,39.99") Amap.comma = 1%nat
  /\ exists url,
       UrlGen.get_weibo_place_url Samples.same_text (lit "116.31,39.99")
       = Some url.
Proof.
  split; [reflexivity|].
  apply (proj1 (get_weibo_place_url_one_comma Samples.same_text
                  (lit "116.31,39.99"))).
  reflexivity.
Defined.


Lemma generate_urls_from_csv_succeeds_witness :
  let run := UrlGen.generate_urls_from_csv Samples.ascii_digit
               Samples.same_text (Ok Samples.places) Samples.cardlist_view 5
               (Ok tt) in
  let failed := UrlGen.generate_urls_from_csv Samples.ascii_digit
                  Samples.same_text (Ok Samples.places_with_empty_cell)
                  Samples.cardlist_view 5 (Ok tt) in
  fst (fst run) = true
  /\ fst (fst failed) = false
  /\ snd (fst failed) = None.
Proof.
  intros run failed.
  pose proof generate_urls_from_csv_succeeds as T.
  specialize T with (1 := triple_eta run).
  pose proof generate_urls_from_csv_succeeds as F.
  specialize F with (1 := triple_eta failed).
  destruct T as (Htrue & _). destruct F as (_ & Hfalse).
  split.
  - apply Htrue. exists (fst Samples.places), (snd Samples.places).
    repeat split; reflexivity.
  - assert (Hb : fst (fst failed) = false) by reflexivity.
    split; [exact Hb|]. apply Hfalse. exact Hb.
Defined.

Lemma validated_coordinates_have_place_url_witness :
  Samples.ascii_digit Amap.comma = false
  /\ FileConverter.coordinates_match Samples.ascii_digit (lit "116.31,39.99")
     = true
  /\ exists url,
       UrlGen.get_weibo_place_url Samples.same_text (lit "116.31,39.99")
       = Some url.
Proof.
  assert (Hcomma : Samples.ascii_digit Amap.comma = false) by reflexivity.
  split; [exact Hcomma|]. split; [reflexivity|].
  destruct (@validated_coordinates_have_place_url Samples.ascii_digit
              Samples.same_text Hcomma) as [Hone _].
  apply (Hone (lit "116.31,39.99")). reflexivity.
Defined.
